(** * Summit Resolutions: the goal store of the [Home] page, embedded in Rocq

    The application keeps one ordered list of goals in React state, mirrors
    it into [localStorage] and derives every figure it shows from that list.
    This file embeds the store logic of the page component (period keys,
    targets, completion, creation, count adjustment, the start-up load and
    the percentages) and proves the properties the specification states
    about it.

    Conventions of the embedding.
    - A JavaScript string is a [string]; its characters stand for the code
      units U+0000..U+00FF.
    - A count or a target is a JavaScript number holding an integer; it is a
      [Z].  Doubles represent every integer of magnitude below 2^53 exactly,
      so on such values [+], [Math.max] and the comparisons are the ones of
      [Z].  Division and multiplication by 100 do leave the integers; they
      are embedded with their binary64 rounding written out (section
      "Doubles" below).
    - [undefined] in an optional field is [None].
    - [Record<string, number>] is a finite map [gmap string Z].
    - [new Date()], [crypto.randomUUID()], [localStorage] and [JSON.parse]
      are inputs of the functions that use them. *)

From Stdlib Require Import ZArith List Bool Ascii String Lia Floats.
From stdpp Require Import base tactics option list gmap strings pretty.

Local Open Scope string_scope.
Local Open Scope Z_scope.

(** ** Data model *)

Inductive GoalType : Type := daily | monthly | anytime.

#[global] Instance GoalType_eq_dec : EqDecision GoalType.
Proof. solve_decision. Defined.

Module Goal.
Record t : Type := mk {
  id : string;
  title : string;
  type : GoalType;
  notes : string;
  targetCount : option Z;
  dueDate : option string;
  createdAt : string;
  entries : gmap string Z
}.

(** [{ ...goal, entries: e }] *)
Definition with_entries (goal : t) (e : gmap string Z) : t :=
  {| id := id goal; title := title goal; type := type goal;
     notes := notes goal; targetCount := targetCount goal;
     dueDate := dueDate goal; createdAt := createdAt goal;
     entries := e |}.
End Goal.

Module GoalForm.
Record t : Type := mk {
  title : string;
  type : GoalType;
  notes : string;
  targetCount : string;
  dueDate : string
}.
End GoalForm.

Definition emptyForm : GoalForm.t :=
  {| GoalForm.title := ""; GoalForm.type := daily; GoalForm.notes := "";
     GoalForm.targetCount := ""; GoalForm.dueDate := "" |}.

(** The three getters of [Date] that the page reads (local time):
    [getMonth] is zero-based. *)
Record Date : Type := mkDate {
  getFullYear : Z;
  getMonth : Z;
  getDate : Z
}.

(** ** Period keys *)

(** [String(value)] on an integer-valued number: its decimal numeral. *)
Definition String_of_number (value : Z) : string := pretty value.

(** [s.padStart(2, "0")] *)
Definition padStart2 (s : string) : string :=
  match String.length s with
  | O => "00"
  | S O => "0" +:+ s
  | _ => s
  end.

Definition pad (value : Z) : string := padStart2 (String_of_number value).

Definition formatDateKey (date : Date) : string :=
  let year := getFullYear date in
  let month := pad (getMonth date + 1) in
  let day := pad (getDate date) in
  String_of_number year +:+ "-" +:+ month +:+ "-" +:+ day.

Definition formatMonthKey (date : Date) : string :=
  let year := getFullYear date in
  let month := pad (getMonth date + 1) in
  String_of_number year +:+ "-" +:+ month.

Definition getPeriodKey (type : GoalType) (date : Date) : string :=
  match type with
  | daily => formatDateKey date
  | monthly => formatMonthKey date
  | anytime => "all"
  end.

(** ** Derived values *)

(** Truthiness of a [number | undefined] that holds an integer:
    [undefined] and [0] are falsy. *)
Definition truthy (v : option Z) : bool :=
  match v with
  | Some n => negb (n =? 0)
  | None => false
  end.

Definition getTargetForGoal (goal : Goal.t) : option Z :=
  if truthy (Goal.targetCount goal) then Goal.targetCount goal
  else if decide (Goal.type goal = anytime) then None
  else Some 1.

(** [goal.entries[periodKey] ?? 0] *)
Definition getCountForPeriod (goal : Goal.t) (periodKey : string) : Z :=
  default 0 (Goal.entries goal !! periodKey).

Definition isGoalComplete (goal : Goal.t) (periodKey : string) : bool :=
  let target := getTargetForGoal goal in
  let count := getCountForPeriod goal periodKey in
  match target with
  | Some tgt => if truthy target then tgt <=? count else 0 <? count
  | None => 0 <? count
  end.

(** ** Adjusting a count *)

(** The updater that [updateGoalCount(goalId, delta)] hands to [setGoals];
    [now] is the value of [new Date()] during the update. *)
Definition updateGoalCount (now : Date) (goalId : string) (delta : Z)
    (current : list Goal.t) : list Goal.t :=
  map (fun goal =>
         if decide (Goal.id goal ≠ goalId) then goal
         else
           let periodKey := getPeriodKey (Goal.type goal) now in
           let currentCount := getCountForPeriod goal periodKey in
           let nextCount := Z.max 0 (currentCount + delta) in
           Goal.with_entries goal (<[periodKey := nextCount]> (Goal.entries goal)))
      current.

(** The function that [updateGoalCount] maps over the list, by name. *)
Definition adjusted (now : Date) (goalId : string) (delta : Z)
    (goal : Goal.t) : Goal.t :=
  if decide (Goal.id goal ≠ goalId) then goal
  else
    let periodKey := getPeriodKey (Goal.type goal) now in
    Goal.with_entries goal
      (<[periodKey := Z.max 0 (getCountForPeriod goal periodKey + delta)]>
         (Goal.entries goal)).

(** The updater of [deleteGoal(goalId)]. *)
Definition deleteGoal (goalId : string) (current : list Goal.t) : list Goal.t :=
  List.filter (fun goal => bool_decide (Goal.id goal ≠ goalId)) current.

(** ** Creating a goal *)

(** White space in the sense of [String.prototype.trim] and of [parseInt],
    among the code units below U+0100: TAB, LF, VT, FF, CR, SPACE, NBSP. *)
Definition isWhiteSpace (c : ascii) : bool :=
  let n := N_of_ascii c in
  ((n =? 9) || (n =? 10) || (n =? 11) || (n =? 12) || (n =? 13)
   || (n =? 32) || (n =? 160))%N.

Fixpoint trimStart (s : string) : string :=
  match s with
  | EmptyString => EmptyString
  | String c s' => if isWhiteSpace c then trimStart s' else s
  end.

Fixpoint trimEnd (s : string) : string :=
  match s with
  | EmptyString => EmptyString
  | String c s' =>
      match trimEnd s' with
      | EmptyString => if isWhiteSpace c then EmptyString else String c EmptyString
      | r => String c r
      end
  end.

Definition trim (s : string) : string := trimEnd (trimStart s).

(** Truthiness of a string: only the empty string is falsy. *)
Definition nonempty (s : string) : bool :=
  match s with
  | EmptyString => false
  | String _ _ => true
  end.

(** What [Number.parseInt] returns: [NaN] or an integer.  The embedding
    keeps the exact value of the numeral; it is the value of the real
    function for the numerals below 2^53 in magnitude (beyond, the real
    function rounds to the nearest double, and to [Infinity] from 2^1024
    on), and the statements about it are made for that range. *)
Inductive JSNumber : Type := NaN | Int (n : Z).

Definition digit_value (c : ascii) : option Z :=
  let n := Z.of_N (N_of_ascii c) in
  if (48 <=? n) && (n <=? 57) then Some (n - 48) else None.

(** The value of the longest prefix of decimal digits of [s], continuing
    from the digits read so far ([acc]: their value, [None] when none). *)
Fixpoint parseDigits (s : string) (acc : option Z) : option Z :=
  match s with
  | EmptyString => acc
  | String c s' =>
      match digit_value c with
      | Some d => parseDigits s' (Some (10 * default 0 acc + d))
      | None => acc
      end
  end.

(** [Number.parseInt(s, 10)]: skip leading white space, read an optional
    sign, then the longest run of decimal digits; [NaN] when there is no
    digit. *)
Definition parseInt10 (s : string) : JSNumber :=
  let s1 := trimStart s in
  let '(sign, s2) :=
    match s1 with
    | String "-" rest => (-1, rest)
    | String "+" rest => (1, rest)
    | _ => (1, s1)
    end in
  match parseDigits s2 None with
  | Some n => Int (sign * n)
  | None => NaN
  end.

(** [Number.isNaN(targetCount) || targetCount === 0 ? undefined : targetCount]
    on a [targetCount] that is [undefined] or the result of [parseInt]. *)
Definition normalizeTargetCount (targetCount : option JSNumber) : option Z :=
  match targetCount with
  | None => None
  | Some NaN => None
  | Some (Int n) => if n =? 0 then None else Some n
  end.

(** What [handleSubmit] reads from its surroundings. *)
Record Env : Type := mkEnv {
  randomUUID : string;     (* crypto.randomUUID() *)
  nowISO : string          (* new Date().toISOString() *)
}.

(** The React state of [Home]. *)
Record Store : Type := mkStore {
  goals : list Goal.t;
  form : GoalForm.t;
  isLoaded : bool
}.

Definition nextGoal (env : Env) (form : GoalForm.t) : Goal.t :=
  let targetCount :=
    if nonempty (GoalForm.targetCount form)
    then Some (parseInt10 (GoalForm.targetCount form))
    else None in
  {| Goal.id := randomUUID env;
     Goal.title := trim (GoalForm.title form);
     Goal.type := GoalForm.type form;
     Goal.notes := trim (GoalForm.notes form);
     Goal.targetCount := normalizeTargetCount targetCount;
     Goal.dueDate :=
       if nonempty (GoalForm.dueDate form) then Some (GoalForm.dueDate form)
       else None;
     Goal.createdAt := nowISO env;
     Goal.entries := ∅ |}.

Definition handleSubmit (env : Env) (st : Store) : Store :=
  if negb (nonempty (trim (GoalForm.title (form st)))) then st
  else
    {| goals := nextGoal env (form st) :: goals st;
       form := emptyForm;
       isLoaded := isLoaded st |}.

(** [Create(title, type, notes, targetCount, dueDate)]: fill the form and
    submit it. *)
Definition Create (env : Env) (title : string) (type : GoalType)
    (notes targetCount dueDate : string) (st : Store) : Store :=
  handleSubmit env
    {| goals := goals st;
       form := {| GoalForm.title := title; GoalForm.type := type;
                  GoalForm.notes := notes;
                  GoalForm.targetCount := targetCount;
                  GoalForm.dueDate := dueDate |};
       isLoaded := isLoaded st |}.

(** [Adjust(goalId, delta)] and [Delete(goalId)] on the store. *)
Definition Adjust (now : Date) (goalId : string) (delta : Z) (st : Store) : Store :=
  {| goals := updateGoalCount now goalId delta (goals st);
     form := form st; isLoaded := isLoaded st |}.

Definition Delete (goalId : string) (st : Store) : Store :=
  {| goals := deleteGoal goalId (goals st);
     form := form st; isLoaded := isLoaded st |}.

(** ** Loading at start-up *)

(** The values [JSON.parse] can return.  A number is a double. *)
#[warnings="-register-all"]
Inductive JSValue : Type :=
| JNull
| JBoolean (b : bool)
| JNumber (x : float)
| JString (s : string)
| JArray (items : list JSValue)
| JObject (properties : list (string * JSValue)).

(** [Array.isArray(v)] *)
Definition Array_isArray (v : JSValue) : bool :=
  match v with
  | JArray _ => true
  | _ => false
  end.

Module Startup.
(** The state at run time.  [parsed as Goal[]] is a cast the compiler
    erases, so [goals] holds whatever array was stored. *)
Record t : Type := mk {
  goals : JSValue;
  isLoaded : bool;
  console : list string        (* messages passed to console.error *)
}.

(** [useState<Goal[]>([])], [useState(false)] *)
Definition initial : t :=
  {| goals := JArray []; isLoaded := false; console := [] |}.

Definition setGoals (v : JSValue) (st : t) : t :=
  {| goals := v; isLoaded := isLoaded st; console := console st |}.

Definition setIsLoaded (b : bool) (st : t) : t :=
  {| goals := goals st; isLoaded := b; console := console st |}.

Definition console_error (message : string) (st : t) : t :=
  {| goals := goals st; isLoaded := isLoaded st;
     console := console st ++ [message] |}.

Section LoadEffect.
(** [JSON.parse]: [None] when it throws. *)
Variable JSON_parse : string → option JSValue.

(** The first effect of [Home]; [stored] is
    [localStorage.getItem(STORAGE_KEY)], [None] for [null]. *)
Definition loadEffect (stored : option string) (st : t) : t :=
  let st1 :=
    match stored with
    | Some text =>
        if nonempty text then
          match JSON_parse text with
          | Some parsed =>
              if Array_isArray parsed then setGoals parsed st else st
          | None => console_error "Failed to parse stored goals" st
          end
        else st
    | None => st
    end in
  setIsLoaded true st1.

(** The page after mounting: the initial state, then the load effect. *)
Definition startup (stored : option string) : t :=
  loadEffect stored initial.
End LoadEffect.
End Startup.

(** ** Doubles

    [completedGoals / totalGoals], [count / target] and the products by 100
    are not integers: JavaScript computes each of them as the double nearest
    to the exact result (IEEE 754 binary64, round to nearest, ties to
    even).  A finite double is [mant * 2 ^ expo]; an operation computes the
    exact rational result and rounds it to 53 significant bits.  The
    exponent range of binary64 is not modelled: on operands that are
    integers of magnitude below 2^53 and on their quotients times 100 no
    result overflows or is subnormal.  Both divisions of the page are
    guarded by the truthiness of the divisor, so a zero divisor does not
    occur. *)
Module Double.
Record t : Type := mk { mant : Z; expo : Z }.

(** [2 ^ k] for [0 <= k], and [1] below. *)
Definition pow2 (k : Z) : Z := 2 ^ Z.max 0 k.

(** An integer as a double (exact below 2^53 in magnitude). *)
Definition of_Z (n : Z) : t := mk n 0.

(** The integer nearest to [a / b], ties to the even one
    ([0 <= a], [0 < b]). *)
Definition nearest_even (a b : Z) : Z :=
  let q := a / b in
  let r := a mod b in
  if 2 * r <? b then q
  else if b <? 2 * r then q + 1
  else if Z.even q then q else q + 1.

(** [floor (log2 (a / b))] ([0 < a], [0 < b]). *)
Definition ilog2 (a b : Z) : Z :=
  let e0 := Z.log2 a - Z.log2 b in
  if a * pow2 (- e0) <? b * pow2 e0 then e0 - 1 else e0.

(** The double nearest to the rational [a / b] ([0 < b]). *)
Definition round (a b : Z) : t :=
  if a =? 0 then mk 0 0
  else
    let e := ilog2 (Z.abs a) b in
    let s := 52 - e in
    mk (Z.sgn a * nearest_even (Z.abs a * pow2 s) (b * pow2 (- s))) (- s).

(** [x / y] for [y] not zero. *)
Definition div (x y : t) : t :=
  let k := expo x - expo y in
  round (Z.sgn (mant y) * mant x * pow2 k) (Z.abs (mant y) * pow2 (- k)).

(** [x * y] *)
Definition mul (x y : t) : t :=
  let k := expo x + expo y in
  round (mant x * mant y * pow2 k) (pow2 (- k)).

(** [Math.round(x)]: the nearest integer, a tie going up. *)
Definition Math_round (x : t) : Z :=
  let d := pow2 (- expo x) in
  (2 * mant x * pow2 (expo x) + d) / (2 * d).

(** [Math.round((a / b) * 100)] on integers [a] and [b], the expression
    that [stats] and [GoalCard] both evaluate. *)
Definition percent (a b : Z) : Z :=
  Math_round (mul (div (of_Z a) (of_Z b)) (of_Z 100)).

(** The same product on the kernel's binary64 numbers, to compare:
    [(a / b) * 100] for integers below 2^63 in magnitude. *)
Definition prim_of_Z (z : Z) : float :=
  if z <? 0 then PrimFloat.opp (PrimFloat.of_uint63 (Uint63.of_Z (- z)))
  else PrimFloat.of_uint63 (Uint63.of_Z z).

Definition prim_product (a b : Z) : float :=
  PrimFloat.mul (PrimFloat.div (prim_of_Z a) (prim_of_Z b)) (prim_of_Z 100).

(** [x] and the binary64 number [f] are the same real number. *)
Definition same_value (x : t) (f : float) : bool :=
  match Prim2SF f with
  | S754_zero _ => mant x =? 0
  | S754_finite sign m e =>
      mant x * pow2 (expo x) * pow2 (- e)
      =? (if sign then -1 else 1) * Z.pos m * pow2 e * pow2 (- expo x)
  | _ => false
  end.
End Double.

(** ** Statistics *)

Record Stats : Type := mkStats {
  totalGoals : Z;
  dailyDone : Z;
  monthlyDone : Z;
  anytimeDone : Z;
  completionRate : Z
}.

(** [array.length] *)
Definition Array_length {A : Type} (l : list A) : Z := Z.of_nat (length l).

Definition goalsOfType (type : GoalType) (goals : list Goal.t) : list Goal.t :=
  List.filter (fun goal => bool_decide (Goal.type goal = type)) goals.

(** The [stats] memo.  [dailyKey] and [monthlyKey] are the period keys the
    page computed when it mounted. *)
Definition stats (dailyKey monthlyKey : string) (goals : list Goal.t) : Stats :=
  let dailyGoals := goalsOfType daily goals in
  let monthlyGoals := goalsOfType monthly goals in
  let anytimeGoals := goalsOfType anytime goals in
  let dailyDone :=
    Array_length (List.filter (fun goal => isGoalComplete goal dailyKey) dailyGoals) in
  let monthlyDone :=
    Array_length (List.filter (fun goal => isGoalComplete goal monthlyKey) monthlyGoals) in
  let anytimeDone :=
    Array_length (List.filter (fun goal => isGoalComplete goal "all") anytimeGoals) in
  let totalGoals := Array_length goals in
  let completedGoals := dailyDone + monthlyDone + anytimeDone in
  let completionRate :=
    if negb (totalGoals =? 0)
    then Double.Math_round
           (Double.mul
              (Double.div (Double.of_Z completedGoals) (Double.of_Z totalGoals))
              (Double.of_Z 100))
    else 0 in
  {| totalGoals := totalGoals;
     dailyDone := dailyDone;
     monthlyDone := monthlyDone;
     anytimeDone := anytimeDone;
     completionRate := completionRate |}.

(** The period key under which [stats] judges a goal of each type. *)
Definition currentKey (dailyKey monthlyKey : string) (type : GoalType) : string :=
  match type with
  | daily => dailyKey
  | monthly => monthlyKey
  | anytime => "all"
  end.

(** totalComplete: the goals that are complete for the current period key
    of their type. *)
Definition totalComplete (dailyKey monthlyKey : string) (goals : list Goal.t) : Z :=
  Array_length
    (List.filter
       (fun goal =>
          isGoalComplete goal (currentKey dailyKey monthlyKey (Goal.type goal)))
       goals).

(** The statistics of a page mounted on [date]. *)
Definition statsAt (date : Date) (goals : list Goal.t) : Stats :=
  stats (getPeriodKey daily date) (getPeriodKey monthly date) goals.

(** ** The goal card *)

(** What [GoalCard] computes and shows. *)
Record Card : Type := mkCard {
  count : Z;
  target : option Z;
  isComplete : bool;
  progress : Z;                    (* the local constant [progress] *)
  progressBar : option Z;          (* the percentage shown; [None]: no bar *)
  decrementDisabled : bool
}.

Definition GoalCard (goal : Goal.t) (periodKey : string) : Card :=
  let count := getCountForPeriod goal periodKey in
  let target := getTargetForGoal goal in
  let isComplete := isGoalComplete goal periodKey in
  let progress :=
    match target with
    | Some tgt =>
        if truthy target
        then Z.min 100
               (Double.Math_round
                  (Double.mul
                     (Double.div (Double.of_Z count) (Double.of_Z tgt))
                     (Double.of_Z 100)))
        else 0
    | None => 0
    end in
  {| count := count;
     target := target;
     isComplete := isComplete;
     progress := progress;
     progressBar := if truthy target then Some progress else None;
     decrementDisabled := count =? 0 |}.

(** Progress%(goal): the percentage on the card of [goal] in the column of
    its type, on a page mounted on [date]. *)
Definition ProgressPct (date : Date) (goal : Goal.t) : option Z :=
  progressBar (GoalCard goal (getPeriodKey (Goal.type goal) date)).

(** The arithmetic the specification writes: [round(a / b)], the nearest
    integer to the exact quotient ([0 < b]); a tie goes up, as in
    [Math.round]. *)
Definition round_exact (a b : Z) : Z := (2 * a + b) / (2 * b).

(** [a / b] lies exactly half-way between two integers. *)
Definition halfway (a b : Z) : Prop := (2 * a) mod (2 * b) = b.

(** ** Editing the form *)

(** The five uses of [handleChange(field, value)] in the form, one for
    each field; the type selector passes a [GoalType], the inputs a
    string. *)
Inductive FormChange : Type :=
| SetTitle (value : string)
| SetType (value : GoalType)
| SetNotes (value : string)
| SetTargetCount (value : string)
| SetDueDate (value : string).

(** [{ ...current, [field]: value }] *)
Definition setField (change : FormChange) (current : GoalForm.t) : GoalForm.t :=
  match change with
  | SetTitle value =>
      {| GoalForm.title := value; GoalForm.type := GoalForm.type current;
         GoalForm.notes := GoalForm.notes current;
         GoalForm.targetCount := GoalForm.targetCount current;
         GoalForm.dueDate := GoalForm.dueDate current |}
  | SetType value =>
      {| GoalForm.title := GoalForm.title current; GoalForm.type := value;
         GoalForm.notes := GoalForm.notes current;
         GoalForm.targetCount := GoalForm.targetCount current;
         GoalForm.dueDate := GoalForm.dueDate current |}
  | SetNotes value =>
      {| GoalForm.title := GoalForm.title current;
         GoalForm.type := GoalForm.type current; GoalForm.notes := value;
         GoalForm.targetCount := GoalForm.targetCount current;
         GoalForm.dueDate := GoalForm.dueDate current |}
  | SetTargetCount value =>
      {| GoalForm.title := GoalForm.title current;
         GoalForm.type := GoalForm.type current;
         GoalForm.notes := GoalForm.notes current;
         GoalForm.targetCount := value;
         GoalForm.dueDate := GoalForm.dueDate current |}
  | SetDueDate value =>
      {| GoalForm.title := GoalForm.title current;
         GoalForm.type := GoalForm.type current;
         GoalForm.notes := GoalForm.notes current;
         GoalForm.targetCount := GoalForm.targetCount current;
         GoalForm.dueDate := value |}
  end.

(** The [field] argument of the call. *)
Definition fieldOf (change : FormChange) : string :=
  match change with
  | SetTitle _ => "title"
  | SetType _ => "type"
  | SetNotes _ => "notes"
  | SetTargetCount _ => "targetCount"
  | SetDueDate _ => "dueDate"
  end.

Definition handleChange (change : FormChange) (st : Store) : Store :=
  {| goals := goals st; form := setField change (form st);
     isLoaded := isLoaded st |}.

(** ** Writing to storage *)

Module Persist.
Section Effects.
Variable JSON_parse : string → option JSValue.
Variable JSON_stringify : JSValue → string.

(** Whether [Home] renders a goal list that is not empty to the end.  The
    render reads [goal.type] of every element, [goal.entries[periodKey]]
    of every element of one of the three types, and hands title, notes,
    target and count to React as children: it throws on an element [null],
    on a goal without [entries], on an object where a text is expected. *)
Variable renders : list JSValue → bool.

(** The render of [goals]: with no goal the three filters are empty, the
    statistics take the branch of [totalGoals] 0 and each column shows its
    placeholder; [goals.filter] throws on a value that is no array. *)
Definition rendersOk (goals : JSValue) : bool :=
  match goals with
  | JArray [] => true
  | JArray items => renders items
  | _ => false
  end.

(** The second effect of [Home], on the value stored under
    [STORAGE_KEY]: nothing before the load, then
    [localStorage.setItem(STORAGE_KEY, JSON.stringify(goals))]. *)
Definition persistEffect (st : Startup.t) (storage : option string) : option string :=
  if negb (Startup.isLoaded st) then storage
  else Some (JSON_stringify (Startup.goals st)).

(** Mounting the page.  Both effects run after the first render, on the
    initial state: the load effect reads the storage and queues its state
    updates, the persist effect sees [isLoaded = false].  The updates
    change [isLoaded], a dependency of the persist effect, so the page
    renders again and then runs the persist effect; when that render
    throws, the page is gone ([None]) and no effect runs. *)
Definition mount (storage : option string) : option Startup.t * option string :=
  let st := Startup.loadEffect JSON_parse storage Startup.initial in
  let storage1 := persistEffect Startup.initial storage in
  if rendersOk (Startup.goals st) then (Some st, persistEffect st storage1)
  else (None, storage1).
End Effects.
End Persist.

(** ** Predicates used in the statements *)

(** The month and the day of the month are those of a calendar date
    ([getMonth] from 0 to 11, [getDate] from 1 to 31). *)
Definition calendarFields (date : Date) : Prop :=
  0 ≤ getMonth date ≤ 11 ∧ 1 ≤ getDate date ≤ 31.

Definition startsWithWhiteSpace (s : string) : bool :=
  match s with
  | EmptyString => false
  | String c _ => isWhiteSpace c
  end.

Fixpoint endsWithWhiteSpace (s : string) : bool :=
  match s with
  | EmptyString => false
  | String c EmptyString => isWhiteSpace c
  | String _ s' => endsWithWhiteSpace s'
  end.

Fixpoint allWhiteSpace (s : string) : bool :=
  match s with
  | EmptyString => true
  | String c s' => isWhiteSpace c && allWhiteSpace s'
  end.

(** Every recorded count of every goal is at least 0. *)
Definition countsNonNegative (goals : list Goal.t) : Prop :=
  Forall (λ goal, map_Forall (λ _ n, 0 ≤ n) (Goal.entries goal)) goals.

(** A list that holds [null] does not render: [goal.type] throws on it. *)
Definition sample_renders (items : list JSValue) : bool :=
  forallb (fun v => match v with JNull => false | _ => true end) items.

(** A fragment of [JSON.stringify], for the three values of
    [sample_JSON_parse]. *)
Definition sample_JSON_stringify (v : JSValue) : string :=
  match v with
  | JArray [] => "[]"
  | JArray [JNull] => "[null]"
  | JObject [] => "{}"
  | _ => "null"
  end.

(** ** Sample data *)

Definition jan5 : Date := mkDate 2026 0 5.

Definition sampleEnv : Env :=
  {| randomUUID := "7f3c"; nowISO := "2026-01-05T08:00:00.000Z" |}.

Definition walk : Goal.t :=
  {| Goal.id := "g1"; Goal.title := "Walk"; Goal.type := daily;
     Goal.notes := ""; Goal.targetCount := Some 4; Goal.dueDate := None;
     Goal.createdAt := "2026-01-01T08:00:00.000Z";
     Goal.entries := {[ "2026-01-04" := 2 ]} |}.

Definition read : Goal.t :=
  {| Goal.id := "g2"; Goal.title := "Read"; Goal.type := anytime;
     Goal.notes := "a book"; Goal.targetCount := None; Goal.dueDate := None;
     Goal.createdAt := "2026-01-02T08:00:00.000Z";
     Goal.entries := ∅ |}.

(** A daily goal whose stored [targetCount] is [0]. *)
Definition stretch : Goal.t :=
  {| Goal.id := "g3"; Goal.title := "Stretch"; Goal.type := daily;
     Goal.notes := ""; Goal.targetCount := Some 0; Goal.dueDate := None;
     Goal.createdAt := "2026-01-03T08:00:00.000Z";
     Goal.entries := ∅ |}.

Definition sampleStore : Store :=
  {| goals := [walk; read]; form := emptyForm; isLoaded := true |}.




(** A fragment of [JSON.parse], enough to run the load effect on three
    stored texts. *)
Definition sample_JSON_parse (text : string) : option JSValue :=
  if decide (text = "[]") then Some (JArray [])
  else if decide (text = "[null]") then Some (JArray [JNull])
  else if decide (text = "{}") then Some (JObject [])
  else None.

(** The [i]-th of a series of daily goals without [targetCount]: one that
    has a check-in under [key], and one that has none. *)
Definition doneGoal (key : string) (i : nat) : Goal.t :=
  {| Goal.id := "done-" +:+ pretty i; Goal.title := "Done"; Goal.type := daily;
     Goal.notes := ""; Goal.targetCount := None; Goal.dueDate := None;
     Goal.createdAt := "2026-01-01T08:00:00.000Z";
     Goal.entries := {[ key := 1 ]} |}.

Definition openGoal (i : nat) : Goal.t :=
  {| Goal.id := "open-" +:+ pretty i; Goal.title := "Open"; Goal.type := daily;
     Goal.notes := ""; Goal.targetCount := None; Goal.dueDate := None;
     Goal.createdAt := "2026-01-01T08:00:00.000Z";
     Goal.entries := ∅ |}.

(** [done] complete daily goals followed by [open] incomplete ones. *)
Definition mixedGoals (key : string) (done open : nat) : list Goal.t :=
  map (doneGoal key) (seq 0 done) ++ map openGoal (seq 0 open).

(** Forty daily goals, 23 of them complete on 5 January. *)
Definition fortyGoals : list Goal.t := mixedGoals "2026-01-05" 23 17.

(** A daily goal with target 40 and 23 check-ins on 5 January. *)
Definition pushups : Goal.t :=
  {| Goal.id := "g4"; Goal.title := "Push-ups"; Goal.type := daily;
     Goal.notes := ""; Goal.targetCount := Some 40; Goal.dueDate := None;
     Goal.createdAt := "2026-01-01T08:00:00.000Z";
     Goal.entries := {[ "2026-01-05" := 23 ]} |}.

(** The integers from [lo], [n] of them. *)
Definition range (lo : Z) (n : nat) : list Z :=
  map (fun i => lo + Z.of_nat i) (seq 0 n).

(** * Properties *)

(** ** Period keys *)

Example getPeriodKey_daily :
  getPeriodKey daily jan5 = "2026-01-05".
Proof. vm_compute. reflexivity. Qed.

Example getPeriodKey_monthly :
  getPeriodKey monthly (mkDate 2026 10 15) = "2026-11".
Proof. vm_compute. reflexivity. Qed.

Example getPeriodKey_anytime date : getPeriodKey anytime date = "all".
Proof. reflexivity. Qed.

(** ** Adjust *)

Section AdjustFacts.
Variables (now : Date) (goalId : string) (delta : Z).

Lemma updateGoalCount_map current :
  updateGoalCount now goalId delta current
  = map (adjusted now goalId delta) current.
Proof. reflexivity. Qed.

Lemma updateGoalCount_lookup current i goal :
  current !! i = Some goal →
  updateGoalCount now goalId delta current !! i
  = Some (adjusted now goalId delta goal).
Proof.
  rewrite updateGoalCount_map.
  revert i. induction current as [|g gs IH]; intros [|i] H; simplify_eq/=; auto.
Qed.

Lemma updateGoalCount_length current :
  length (updateGoalCount now goalId delta current) = length current.
Proof. rewrite updateGoalCount_map. apply length_map. Qed.

Lemma adjusted_other goal :
  Goal.id goal ≠ goalId → adjusted now goalId delta goal = goal.
Proof. intros H. unfold adjusted. by rewrite decide_True. Qed.

Lemma adjusted_match goal :
  Goal.id goal = goalId →
  adjusted now goalId delta goal =
    Goal.with_entries goal
      (<[getPeriodKey (Goal.type goal) now :=
           Z.max 0 (getCountForPeriod goal (getPeriodKey (Goal.type goal) now) + delta)]>
         (Goal.entries goal)).
Proof. intros H. unfold adjusted. rewrite decide_False; [done | by intros ?]. Qed.

Lemma updateGoalCount_absent current :
  Forall (λ goal, Goal.id goal ≠ goalId) current →
  updateGoalCount now goalId delta current = current.
Proof.
  rewrite updateGoalCount_map.
  induction 1 as [|g gs Hg _ IH]; simpl; [done |].
  by rewrite adjusted_other, IH.
Qed.
End AdjustFacts.

(** C1.  [Adjust(goalId, delta)]: when no goal has the id the list is
    unchanged; otherwise every goal with that id has, at its current period
    key (from its type and the current date), the entry
    [max(0, oldCount + delta)], where [oldCount] is the old entry or 0 when
    the key was absent.  In particular a decrement at count 0 leaves the
    count at 0. *)
Theorem Adjust_sets_count (now : Date) (goalId : string) (delta : Z) (st : Store) :
  (Forall (λ goal, Goal.id goal ≠ goalId) (goals st) →
     goals (Adjust now goalId delta st) = goals st)
  ∧ (∀ (i : nat) (goal : Goal.t),
       goals st !! i = Some goal → Goal.id goal = goalId →
       let periodKey := getPeriodKey (Goal.type goal) now in
       let oldCount := default 0 (Goal.entries goal !! periodKey) in
       ∃ goal', goals (Adjust now goalId delta st) !! i = Some goal'
         ∧ Goal.entries goal' !! periodKey = Some (Z.max 0 (oldCount + delta))
         ∧ getCountForPeriod goal' periodKey = Z.max 0 (oldCount + delta)
         ∧ (delta = -1 → getCountForPeriod goal periodKey = 0 →
            getCountForPeriod goal' periodKey = 0)).
Proof.
  split.
  - intros Habsent. simpl. by apply updateGoalCount_absent.
  - intros i goal Hi Hid periodKey oldCount.
    exists (adjusted now goalId delta goal). split.
    + simpl. by apply updateGoalCount_lookup.
    + rewrite adjusted_match by done.
      unfold getCountForPeriod. simpl. fold periodKey.
      rewrite lookup_insert_eq. simpl. fold oldCount.
      repeat split; try done.
      intros -> Hzero. unfold getCountForPeriod in Hzero. fold periodKey in Hzero.
      fold oldCount in Hzero. lia.
Qed.

Lemma Adjust_sets_count_witness :
  goals (Adjust jan5 "nobody" 1 sampleStore) = goals sampleStore
  ∧ ∃ goal', goals (Adjust jan5 "g1" (-1) sampleStore) !! 0%nat = Some goal'
      ∧ Goal.entries goal' !! "2026-01-05" = Some 0
      ∧ getCountForPeriod goal' "2026-01-05" = 0.
Proof.
  split.
  - apply (proj1 (Adjust_sets_count jan5 "nobody" 1 sampleStore)).
    repeat constructor; vm_compute; discriminate.
  - destruct (proj2 (Adjust_sets_count jan5 "g1" (-1) sampleStore) 0%nat walk
                eq_refl eq_refl) as (goal' & H1 & H2 & H3 & _).
    exists goal'. repeat split; assumption.
Defined.

(** C9.  [Adjust(goalId, delta)] changes nothing but the entry at the
    current period key of the goals it finds: the list keeps its length and
    its order, a goal with another id is untouched, and a found goal keeps
    its id, title, type, notes, targetCount, dueDate, createdAt and every
    entry under another period key. *)
Theorem Adjust_frame (now : Date) (goalId : string) (delta : Z) (st : Store) :
  length (goals (Adjust now goalId delta st)) = length (goals st)
  ∧ map Goal.id (goals (Adjust now goalId delta st)) = map Goal.id (goals st)
  ∧ ∀ (i : nat) (goal : Goal.t),
      goals st !! i = Some goal →
      ∃ goal', goals (Adjust now goalId delta st) !! i = Some goal'
        ∧ (Goal.id goal ≠ goalId → goal' = goal)
        ∧ Goal.id goal' = Goal.id goal
        ∧ Goal.title goal' = Goal.title goal
        ∧ Goal.type goal' = Goal.type goal
        ∧ Goal.notes goal' = Goal.notes goal
        ∧ Goal.targetCount goal' = Goal.targetCount goal
        ∧ Goal.dueDate goal' = Goal.dueDate goal
        ∧ Goal.createdAt goal' = Goal.createdAt goal
        ∧ ∀ key : string,
            key ≠ getPeriodKey (Goal.type goal) now →
            Goal.entries goal' !! key = Goal.entries goal !! key.
Proof.
  split; [| split].
  - simpl. apply updateGoalCount_length.
  - simpl. rewrite updateGoalCount_map, map_map. apply map_ext.
    intros goal. unfold adjusted. by case_decide.
  - intros i goal Hi. exists (adjusted now goalId delta goal). split.
    + simpl. by apply updateGoalCount_lookup.
    + split; [apply adjusted_other |].
      unfold adjusted. case_decide; simpl; repeat split; try done.
      intros key Hkey. by rewrite lookup_insert_ne.
Qed.

Lemma Adjust_frame_witness :
  ∃ goal', goals (Adjust jan5 "g1" 1 sampleStore) !! 0%nat = Some goal'
    ∧ Goal.title goal' = "Walk"
    ∧ Goal.entries goal' !! "2026-01-04" = Some 2.
Proof.
  destruct (proj2 (proj2 (Adjust_frame jan5 "g1" 1 sampleStore)) 0%nat walk eq_refl)
    as (goal' & H & _ & _ & Htitle & _ & _ & _ & _ & _ & Hentries).
  exists goal'. split; [exact H |]. split; [exact Htitle |].
  rewrite (Hentries "2026-01-04"); [reflexivity |].
  vm_compute. discriminate.
Defined.

(** C10.  A decrement on a found goal whose current period key is absent
    from its entries is not a no-op on the state: the key is inserted with
    value 0, so the domain of the map grows and the list differs from the
    old one, although every count read back is the same. *)
Theorem Adjust_decrement_inserts_key (now : Date) (goalId : string) (st : Store)
    (i : nat) (goal : Goal.t) :
  goals st !! i = Some goal →
  Goal.id goal = goalId →
  Goal.entries goal !! getPeriodKey (Goal.type goal) now = None →
  let periodKey := getPeriodKey (Goal.type goal) now in
  ∃ goal', goals (Adjust now goalId (-1) st) !! i = Some goal'
    ∧ Goal.entries goal' = <[periodKey := 0]> (Goal.entries goal)
    ∧ Goal.entries goal' !! periodKey = Some 0
    ∧ (periodKey ∉ dom (Goal.entries goal))
    ∧ dom (Goal.entries goal') = {[periodKey]} ∪ dom (Goal.entries goal)
    ∧ Adjust now goalId (-1) st ≠ st
    ∧ ∀ key : string, getCountForPeriod goal' key = getCountForPeriod goal key.
Proof.
  intros Hi Hid Hnone periodKey. subst periodKey.
  set (periodKey := getPeriodKey (Goal.type goal) now) in *.
  assert (Hentries : Goal.entries (adjusted now goalId (-1) goal)
                     = <[periodKey := 0]> (Goal.entries goal)).
  { rewrite adjusted_match by done. simpl. fold periodKey.
    unfold getCountForPeriod. fold periodKey. rewrite Hnone. reflexivity. }
  assert (Hlookup : goals (Adjust now goalId (-1) st) !! i
                    = Some (adjusted now goalId (-1) goal)).
  { simpl. by apply updateGoalCount_lookup. }
  exists (adjusted now goalId (-1) goal).
  split; [exact Hlookup |]. split; [exact Hentries |].
  split; [rewrite Hentries; apply lookup_insert_eq |].
  split; [by apply not_elem_of_dom |].
  split; [rewrite Hentries; apply dom_insert_L |].
  split.
  - intros Heq. rewrite Heq, Hi in Hlookup.
    assert (Hsame : Goal.entries goal !! periodKey = Some 0).
    { injection Hlookup as Hg. rewrite Hg at 1. rewrite Hentries.
      apply lookup_insert_eq. }
    congruence.
  - intros key. unfold getCountForPeriod. rewrite Hentries.
    destruct (decide (periodKey = key)) as [<- | Hne].
    + rewrite lookup_insert_eq. by rewrite Hnone.
    + by rewrite lookup_insert_ne.
Qed.

Lemma Adjust_decrement_inserts_key_witness :
  ∃ goal', goals (Adjust jan5 "g2" (-1) sampleStore) !! 1%nat = Some goal'
    ∧ Goal.entries goal' = {[ "all" := 0 ]}
    ∧ Adjust jan5 "g2" (-1) sampleStore ≠ sampleStore.
Proof.
  destruct (Adjust_decrement_inserts_key jan5 "g2" sampleStore 1%nat read
              eq_refl eq_refl eq_refl)
    as (goal' & H & Hentries & _ & _ & _ & Hne & _).
  exists goal'. split; [exact H |]. split; [exact Hentries | exact Hne].
Defined.

(** ** Target and completion *)

Lemma truthy_Some (n : Z) : truthy (Some n) = negb (n =? 0).
Proof. reflexivity. Qed.

Lemma getTargetForGoal_nonzero (goal : Goal.t) (n : Z) :
  Goal.targetCount goal = Some n → n ≠ 0 → getTargetForGoal goal = Some n.
Proof.
  intros Hn Hnz. unfold getTargetForGoal. rewrite Hn, truthy_Some.
  by destruct (Z.eqb_spec n 0).
Qed.

Lemma getTargetForGoal_default (goal : Goal.t) :
  truthy (Goal.targetCount goal) = false →
  getTargetForGoal goal = if decide (Goal.type goal = anytime) then None else Some 1.
Proof. intros H. unfold getTargetForGoal. by rewrite H. Qed.

(** The target that [isGoalComplete] and the card branch on is never 0. *)
Lemma getTargetForGoal_truthy (goal : Goal.t) (n : Z) :
  getTargetForGoal goal = Some n → n ≠ 0.
Proof.
  unfold getTargetForGoal.
  destruct (Goal.targetCount goal) as [m|] eqn:Hm; simpl.
  - destruct (Z.eqb_spec m 0); simpl.
    + case_decide; intros; simplify_eq; lia.
    + intros; simplify_eq; done.
  - case_decide; intros; simplify_eq; lia.
Qed.

(** C4, as stated, fails on a goal whose [targetCount] is set to 0 (a list
    loaded from storage may hold one): the target of the daily goal
    [stretch] is 1, not its [targetCount]. *)
Lemma getTargetForGoal_zero_counterexample :
  Goal.targetCount stretch = Some 0
  ∧ getTargetForGoal stretch = Some 1
  ∧ getTargetForGoal stretch ≠ Goal.targetCount stretch.
Proof. repeat split. discriminate. Qed.

(** C4, amended.  Target(goal) is [targetCount] whenever [targetCount] is
    set and is not 0; when [targetCount] is not set, or is 0, the target is 1
    for a daily or monthly goal and absent for an anytime goal. *)
Theorem getTargetForGoal_spec (goal : Goal.t) :
  (∀ n : Z, Goal.targetCount goal = Some n → n ≠ 0 →
     getTargetForGoal goal = Some n)
  ∧ (Goal.targetCount goal = None ∨ Goal.targetCount goal = Some 0 →
     (Goal.type goal = daily ∨ Goal.type goal = monthly →
        getTargetForGoal goal = Some 1)
     ∧ (Goal.type goal = anytime → getTargetForGoal goal = None)).
Proof.
  split; [apply getTargetForGoal_nonzero |].
  intros Hunset.
  assert (Hfalsy : truthy (Goal.targetCount goal) = false)
    by (destruct Hunset as [-> | ->]; reflexivity).
  rewrite (getTargetForGoal_default _ Hfalsy).
  split.
  - intros [Hty | Hty]; rewrite Hty; reflexivity.
  - intros ->. reflexivity.
Qed.

Lemma getTargetForGoal_spec_witness :
  getTargetForGoal walk = Some 4
  ∧ getTargetForGoal stretch = Some 1
  ∧ getTargetForGoal read = None.
Proof.
  split; [| split].
  - apply (proj1 (getTargetForGoal_spec walk) 4); [reflexivity | lia].
  - apply (proj2 (getTargetForGoal_spec stretch)); [right | left]; reflexivity.
  - apply (proj2 (getTargetForGoal_spec read)); [left |]; reflexivity.
Defined.

(** C7.  An anytime goal without [targetCount] is complete exactly when its
    count under the key "all" is positive: not at 0, and at every count of
    at least 1.  Its card shows no percentage, whatever the count (the
    local constant [progress] is 0 and the bar is not rendered). *)
Theorem anytime_without_target (goal : Goal.t) :
  Goal.type goal = anytime →
  Goal.targetCount goal = None →
  (getCountForPeriod goal "all" = 0 → isGoalComplete goal "all" = false)
  ∧ (1 ≤ getCountForPeriod goal "all" → isGoalComplete goal "all" = true)
  ∧ (isGoalComplete goal "all" = true ↔ 0 < getCountForPeriod goal "all")
  ∧ ∀ date : Date,
      getPeriodKey (Goal.type goal) date = "all"
      ∧ ProgressPct date goal = None
      ∧ progress (GoalCard goal "all") = 0
      ∧ isComplete (GoalCard goal "all") = isGoalComplete goal "all".
Proof.
  intros Hty Htc.
  assert (Htarget : getTargetForGoal goal = None).
  { unfold getTargetForGoal. rewrite Htc, Hty. reflexivity. }
  assert (Hcomplete : isGoalComplete goal "all" = (0 <? getCountForPeriod goal "all")).
  { unfold isGoalComplete. by rewrite Htarget. }
  rewrite Hcomplete. split; [| split; [| split]].
  - intros ->. reflexivity.
  - intros H. apply Z.ltb_lt. lia.
  - apply Z.ltb_lt.
  - intros date. split; [by rewrite Hty |].
    unfold ProgressPct, GoalCard. simpl. rewrite Htarget. simpl.
    by rewrite Hcomplete.
Qed.

Lemma anytime_without_target_witness :
  isGoalComplete read "all" = false ∧ ProgressPct jan5 read = None.
Proof.
  destruct (anytime_without_target read eq_refl eq_refl) as (H0 & _ & _ & Hcard).
  split.
  - apply H0. reflexivity.
  - apply (Hcard jan5).
Defined.

(** ** Create *)

Lemma nonempty_false (s : string) : nonempty s = false ↔ s = "".
Proof. destruct s; simpl; split; intros; congruence. Qed.

Lemma nonempty_true (s : string) : nonempty s = true ↔ s ≠ "".
Proof. destruct s; simpl; split; intros; congruence. Qed.

Lemma handleSubmit_blank (env : Env) (st : Store) :
  trim (GoalForm.title (form st)) = "" → handleSubmit env st = st.
Proof.
  intros H. unfold handleSubmit. by rewrite (proj2 (nonempty_false _) H).
Qed.

Lemma handleSubmit_titled (env : Env) (st : Store) :
  trim (GoalForm.title (form st)) ≠ "" →
  handleSubmit env st =
    {| goals := nextGoal env (form st) :: goals st;
       form := emptyForm; isLoaded := isLoaded st |}.
Proof.
  intros H. unfold handleSubmit. by rewrite (proj2 (nonempty_true _) H).
Qed.

Example trim_blank : trim (String "009"%char "  ") = "".
Proof. reflexivity. Qed.

Example trim_inner : trim ("  Walk the dog " +:+ String "010"%char "") = "Walk the dog".
Proof. reflexivity. Qed.




(** *** The target count of a created goal *)

Example parseInt10_plain : parseInt10 "4" = Int 4.
Proof. reflexivity. Qed.

Example parseInt10_prefix : parseInt10 " 12abc" = Int 12.
Proof. reflexivity. Qed.

Example parseInt10_text : parseInt10 "four" = NaN.
Proof. reflexivity. Qed.

Example parseInt10_negative : parseInt10 "-5" = Int (-5).
Proof. reflexivity. Qed.

(** What the guard of [handleSubmit] does ensure: [NaN] and 0 become
    absent, so a created goal never carries 0. *)
Lemma normalizeTargetCount_nonzero (v : option JSNumber) (n : Z) :
  normalizeTargetCount v = Some n → n ≠ 0.
Proof.
  destruct v as [[|m]|]; simpl; try discriminate.
  destruct (Z.eqb_spec m 0); intros; simplify_eq. done.
Qed.

Lemma nextGoal_targetCount_nonzero (env : Env) (form : GoalForm.t) :
  Goal.targetCount (nextGoal env form) ≠ Some 0.
Proof.
  intros H. by apply normalizeTargetCount_nonzero in H.
Qed.

(** C3.  The guard misses the negative numerals: Create with the target
    text "-5" makes a goal whose [targetCount] is -5, and that goal counts
    as complete before any check-in. *)
Theorem Create_negative_targetCount :
  ∃ goal : Goal.t,
    goals (Create sampleEnv "Run" daily "" "-5" "" sampleStore)
    = goal :: goals sampleStore
    ∧ Goal.targetCount goal = Some (-5)
    ∧ getCountForPeriod goal (getPeriodKey daily jan5) = 0
    ∧ isGoalComplete goal (getPeriodKey daily jan5) = true.
Proof. eexists. split; [reflexivity |]. by vm_compute. Qed.

(** ** Loading at start-up *)

(** C8.  After mounting, the page is loaded.  When the stored text fails to
    parse, or parses to a value that is not an array, the goal list is the
    empty list of the initial state (and a failed parse is reported on the
    console); so it is when nothing is stored.  When the stored text parses
    to an array, that array is the goal list as it is: none of its elements
    is examined.  (The empty text is falsy and is never handed to the
    parser.) *)
Theorem startup_spec (JSON_parse : string → option JSValue) (text : string) :
  Startup.isLoaded (Startup.startup JSON_parse (Some text)) = true
  ∧ Startup.startup JSON_parse None = Startup.setIsLoaded true Startup.initial
  ∧ (JSON_parse text = None →
     Startup.goals (Startup.startup JSON_parse (Some text)) = JArray []
     ∧ (text ≠ "" →
        Startup.console (Startup.startup JSON_parse (Some text))
        = ["Failed to parse stored goals"]))
  ∧ (∀ parsed : JSValue,
       JSON_parse text = Some parsed → Array_isArray parsed = false →
       Startup.goals (Startup.startup JSON_parse (Some text)) = JArray [])
  ∧ (∀ parsed : JSValue,
       text ≠ "" → JSON_parse text = Some parsed → Array_isArray parsed = true →
       Startup.goals (Startup.startup JSON_parse (Some text)) = parsed).
Proof.
  unfold Startup.startup, Startup.loadEffect.
  split; [reflexivity |].
  split; [reflexivity |].
  split; [| split].
  - intros Hfail. rewrite Hfail.
    split; [by destruct (nonempty text) |].
    intros Hne. by rewrite (proj2 (nonempty_true _) Hne).
  - intros parsed Hparsed Hnot. rewrite Hparsed, Hnot.
    by destruct (nonempty text).
  - intros parsed Hne Hparsed His.
    by rewrite (proj2 (nonempty_true _) Hne), Hparsed, His.
Qed.

Lemma startup_spec_witness :
  Startup.goals (Startup.startup sample_JSON_parse (Some "[nul")) = JArray []
  ∧ Startup.goals (Startup.startup sample_JSON_parse (Some "{}")) = JArray []
  ∧ Startup.goals (Startup.startup sample_JSON_parse (Some "[null]")) = JArray [JNull].
Proof.
  split; [| split].
  - destruct (startup_spec sample_JSON_parse "[nul") as (_ & _ & Hfail & _ & _).
    apply Hfail. reflexivity.
  - destruct (startup_spec sample_JSON_parse "{}") as (_ & _ & _ & Hother & _).
    apply (Hother (JObject [])); reflexivity.
  - destruct (startup_spec sample_JSON_parse "[null]") as (_ & _ & _ & _ & Harray).
    apply (Harray (JArray [JNull])); [discriminate | reflexivity | reflexivity].
Defined.

(** ** Doubles *)

Section DoubleFacts.
Import Double.

(** The embedding of binary64 against the kernel's binary64 numbers: the
    product [(c / t) * 100] is the same real number in both, on every pair
    [0 <= c <= t <= 64], and on the two pairs used below. *)
Example percent_same_as_binary64 :
  forallb
    (fun t =>
       forallb
         (fun c => same_value (mul (div (of_Z c) (of_Z t)) (of_Z 100)) (prim_product c t))
         (range 0 (Z.to_nat t + 1)))
    (range 1 64)
  = true.
Proof. vm_compute. reflexivity. Qed.

Example percent_same_as_binary64_far :
  forallb
    (fun '(c, t) => same_value (mul (div (of_Z c) (of_Z t)) (of_Z 100)) (prim_product c t))
    [(29, 200); (1, 3000000); (999983, 7); (-23, 40); (23, -40); (4294967295, 4294967296)]
  = true.
Proof. vm_compute. reflexivity. Qed.

(** On the kernel's binary64 numbers [(23 / 40) * 100] is below 57.5, and
    is the double that the embedding computes. *)
Example binary64_23_40 :
  PrimFloat.ltb (prim_product 23 40) 57.5%float = true
  ∧ Prim2SF (prim_product 23 40) = S754_finite false 8092405580431359 (-47)
  ∧ mul (div (of_Z 23) (of_Z 40)) (of_Z 100) = mk 8092405580431359 (-47)
  ∧ percent 23 40 = 57.
Proof. vm_compute. repeat split. Qed.

Lemma pow2_nonneg k : 0 <= k -> pow2 k = 2 ^ k.
Proof. intros H. unfold pow2. rewrite Z.max_r by lia. reflexivity. Qed.

Lemma pow2_nonpos k : k <= 0 -> pow2 k = 1.
Proof. intros H. unfold pow2. rewrite Z.max_l by lia. reflexivity. Qed.

Lemma pow2_pos k : 0 < pow2 k.
Proof. unfold pow2. apply Z.pow_pos_nonneg; lia. Qed.

Lemma nearest_even_spec a b :
  0 <= a -> 0 < b ->
  - b <= 2 * (nearest_even a b * b - a) <= b.
Proof.
  intros Ha Hb. unfold nearest_even.
  pose proof (Z.div_mod a b ltac:(lia)) as Hdm.
  pose proof (Z.mod_pos_bound a b Hb) as Hr.
  set (q := a / b) in *. set (r := a mod b) in *.
  destruct (Z.ltb_spec (2 * r) b); [lia |].
  destruct (Z.ltb_spec b (2 * r)); [lia |].
  destruct (Z.even q); lia.
Qed.

Lemma ilog2_spec a b :
  0 < a -> 0 < b ->
  b * pow2 (ilog2 a b) <= a * pow2 (- ilog2 a b)
  /\ a * pow2 (- ilog2 a b) < 2 * b * pow2 (ilog2 a b).
Proof.
  intros Ha Hb. unfold ilog2.
  pose proof (Z.log2_spec a Ha) as [Ha1 Ha2].
  pose proof (Z.log2_spec b Hb) as [Hb1 Hb2].
  pose proof (Z.log2_nonneg a) as Hla. pose proof (Z.log2_nonneg b) as Hlb.
  set (la := Z.log2 a) in *. set (lb := Z.log2 b) in *.
  rewrite Z.pow_succ_r in Ha2, Hb2 by lia.
  destruct (Z.ltb_spec (a * pow2 (- (la - lb))) (b * pow2 (la - lb))) as [Hlt | Hge];
    destruct (Z.le_gt_cases 0 (la - lb)) as [He0 | He0].
  - (* 2^e0 overshoots, 0 <= e0 *)
    rewrite (pow2_nonpos (- (la - lb))), (pow2_nonneg (la - lb)) in Hlt by lia.
    assert (Hsplit : 2 ^ la = 2 ^ lb * 2 ^ (la - lb)).
    { rewrite <- Z.pow_add_r by lia. f_equal. lia. }
    destruct (Z.eq_dec (la - lb) 0) as [Hz | Hnz].
    + rewrite Hz in *. rewrite (pow2_nonpos (0 - 1)) by lia.
      replace (- (0 - 1)) with 1 by lia. rewrite (pow2_nonneg 1) by lia.
      change (2 ^ 1) with 2. change (2 ^ 0) with 1 in *. lia.
    + rewrite (pow2_nonneg (la - lb - 1)), (pow2_nonpos (- (la - lb - 1))) by lia.
      assert (Hs : 2 ^ (la - lb) = 2 * 2 ^ (la - lb - 1)).
      { rewrite <- Z.pow_succ_r by lia. f_equal. lia. }
      assert (Hpe : 0 < 2 ^ (la - lb - 1)) by (apply Z.pow_pos_nonneg; lia).
      rewrite Hs in *.
      set (E := 2 ^ (la - lb - 1)) in *. set (P := 2 ^ lb) in *.
      assert (b * E < 2 * P * E) by (apply Z.mul_lt_mono_pos_r; lia).
      lia.
  - (* 2^e0 overshoots, e0 < 0 *)
    rewrite (pow2_nonneg (- (la - lb))), (pow2_nonpos (la - lb)) in Hlt by lia.
    rewrite (pow2_nonpos (la - lb - 1)), (pow2_nonneg (- (la - lb - 1))) by lia.
    assert (Hsplit : 2 ^ lb = 2 ^ la * 2 ^ (- (la - lb))).
    { rewrite <- Z.pow_add_r by lia. f_equal. lia. }
    assert (Hs : 2 ^ (- (la - lb - 1)) = 2 * 2 ^ (- (la - lb))).
    { rewrite <- Z.pow_succ_r by lia. f_equal. lia. }
    assert (Hpe : 0 < 2 ^ (- (la - lb))) by (apply Z.pow_pos_nonneg; lia).
    rewrite Hs.
    set (E := 2 ^ (- (la - lb))) in *. set (P := 2 ^ la) in *.
    assert (P * E <= a * E) by (apply Z.mul_le_mono_nonneg_r; lia).
    lia.
  - (* e0 is the exponent, 0 <= e0 *)
    rewrite (pow2_nonpos (- (la - lb))), (pow2_nonneg (la - lb)) in * by lia.
    assert (Hsplit : 2 ^ la = 2 ^ lb * 2 ^ (la - lb)).
    { rewrite <- Z.pow_add_r by lia. f_equal. lia. }
    assert (Hpe : 0 < 2 ^ (la - lb)) by (apply Z.pow_pos_nonneg; lia).
    set (E := 2 ^ (la - lb)) in *. set (P := 2 ^ lb) in *.
    assert (P * E <= b * E) by (apply Z.mul_le_mono_nonneg_r; lia).
    lia.
  - (* e0 is the exponent, e0 < 0 *)
    rewrite (pow2_nonneg (- (la - lb))), (pow2_nonpos (la - lb)) in * by lia.
    assert (Hsplit : 2 ^ lb = 2 ^ la * 2 ^ (- (la - lb))).
    { rewrite <- Z.pow_add_r by lia. f_equal. lia. }
    assert (Hpe : 0 < 2 ^ (- (la - lb))) by (apply Z.pow_pos_nonneg; lia).
    set (E := 2 ^ (- (la - lb))) in *. set (P := 2 ^ la) in *.
    assert (a * E < 2 * P * E) by (apply Z.mul_lt_mono_pos_r; lia).
    lia.
Qed.

(** Rounding a quotient below 2^52: the scale is a positive power of two
    that brings the quotient into [2^52, 2^53), and the mantissa is within
    one half of the scaled quotient. *)
Lemma round_spec a b :
  0 < a -> 0 < b -> a < 2 ^ 52 * b ->
  exists s n : Z,
    0 < s /\ round a b = mk n (- s)
    /\ 2 ^ 52 * b <= a * 2 ^ s /\ a * 2 ^ s < 2 ^ 53 * b
    /\ - b <= 2 * (n * b - a * 2 ^ s) <= b.
Proof.
  intros Ha Hb Hlt.
  destruct (ilog2_spec a b Ha Hb) as [Hlo Hhi].
  set (e := ilog2 a b) in *.
  assert (He : e < 52).
  { destruct (Z.lt_ge_cases e 52) as [|Hge]; [done |].
    exfalso. rewrite (pow2_nonneg e), (pow2_nonpos (- e)) in Hlo by lia.
    assert (2 ^ 52 <= 2 ^ e) by (apply Z.pow_le_mono_r; lia).
    assert (b * 2 ^ 52 <= b * 2 ^ e) by (apply Z.mul_le_mono_nonneg_l; lia).
    lia. }
  exists (52 - e), (nearest_even (a * 2 ^ (52 - e)) b).
  assert (Hps : 0 < 2 ^ (52 - e)) by (apply Z.pow_pos_nonneg; lia).
  split; [lia |]. split.
  - unfold round. destruct (Z.eqb_spec a 0); [lia |].
    rewrite Z.abs_eq by lia. fold e.
    rewrite (pow2_nonneg (52 - e)), (pow2_nonpos (- (52 - e))) by lia.
    rewrite Z.sgn_pos by lia. rewrite Z.mul_1_r, Z.mul_1_l. reflexivity.
  - split; [| split].
    + destruct (Z.le_gt_cases e 0) as [Hneg | Hpos].
      * rewrite (pow2_nonpos e), (pow2_nonneg (- e)) in Hlo by lia.
        replace (52 - e) with (52 + - e) by lia.
        rewrite Z.pow_add_r by lia. nia.
      * rewrite (pow2_nonneg e), (pow2_nonpos (- e)) in Hlo by lia.
        assert (Hs : 2 ^ 52 = 2 ^ e * 2 ^ (52 - e)).
        { rewrite <- Z.pow_add_r by lia. f_equal. lia. }
        rewrite Hs. nia.
    + destruct (Z.le_gt_cases e 0) as [Hneg | Hpos].
      * rewrite (pow2_nonpos e), (pow2_nonneg (- e)) in Hhi by lia.
        replace (52 - e) with (52 + - e) by lia.
        rewrite Z.pow_add_r by lia. change (2 ^ 53) with (2 * 2 ^ 52). nia.
      * rewrite (pow2_nonneg e), (pow2_nonpos (- e)) in Hhi by lia.
        assert (Hs : 2 ^ 52 = 2 ^ e * 2 ^ (52 - e)).
        { rewrite <- Z.pow_add_r by lia. f_equal. lia. }
        change (2 ^ 53) with (2 * 2 ^ 52). rewrite Hs. nia.
    + apply nearest_even_spec; nia.
Qed.

(** The arithmetic core.  [n / S] is the rounded quotient [c / t] and
    [n' / S'] the rounded product [100 * (n / S)]. *)
Lemma percent_core (c t S S' n n' : Z) :
  0 < c < 2 ^ 44 -> 0 < t -> 0 < S -> 0 < S' ->
  2 ^ 52 * t <= c * S ->
  - t <= 2 * (n * t - c * S) <= t ->
  2 ^ 52 * S <= (100 * n) * S' ->
  - S <= 2 * (n' * S - (100 * n) * S') <= S ->
  round_exact (100 * c) t - 1 <= (2 * n' + S') / (2 * S') <= round_exact (100 * c) t
  /\ (~ halfway (100 * c) t ->
      (2 * n' + S') / (2 * S') = round_exact (100 * c) t).
Proof.
  intros [Hc0 Hc] Ht HS HS' Hb Hn Hd Hn'.
  unfold round_exact, halfway.
  set (K := (2 * (100 * c) + t) / (2 * t)).
  assert (HK : 2 * t * K <= 2 * (100 * c) + t < 2 * t * K + 2 * t).
  { pose proof (Z.div_mod (2 * (100 * c) + t) (2 * t) ltac:(lia)) as Hdm.
    pose proof (Z.mod_pos_bound (2 * (100 * c) + t) (2 * t) ltac:(lia)) as Hm.
    fold K in Hdm. lia. }
  change (2 ^ 44) with 17592186044416 in Hc.
  change (2 ^ 52) with 4503599627370496 in Hb, Hd.
  (* products, named *)
  set (A := S * S') in *.
  assert (HA : 0 < A) by (subst A; apply Z.mul_pos_pos; lia).
  assert (HX : 0 < t * S') by (apply Z.mul_pos_pos; lia).
  assert (HY : 0 < S * t) by (apply Z.mul_pos_pos; lia).
  (* 256 t < S *)
  assert (Hb' : 256 * t < S).
  { assert (c * S <= 17592186044415 * S) by (apply Z.mul_le_mono_nonneg_r; lia). lia. }
  assert (HbX : 256 * (t * S') < A).
  { subst A. assert (256 * t * S' < S * S') by (apply Z.mul_lt_mono_pos_r; lia). lia. }
  (* 2^53 S t <= 200 c A + 100 t S' *)
  assert (HcA : c * A <= 17592186044415 * A) by (apply Z.mul_le_mono_nonneg_r; lia).
  assert (Hd1 : 4503599627370496 * S * t <= 100 * n * S' * t)
    by (apply Z.mul_le_mono_nonneg_r; lia).
  assert (Hn1 : 2 * (n * t) * S' <= (2 * (c * S) + t) * S')
    by (apply Z.mul_le_mono_nonneg_r; lia).
  assert (Hn2 : (2 * (c * S) - t) * S' <= 2 * (n * t) * S')
    by (apply Z.mul_le_mono_nonneg_r; lia).
  assert (HcSS : c * S * S' = c * A) by (subst A; ring).
  assert (HKI : 100 * (t * S') + S * t < A) by lia.
  (* the error of the rounded product, scaled by S * S' * t *)
  assert (He1 : 2 * (n' * S) * t <= (200 * n * S' + S) * t)
    by (apply Z.mul_le_mono_nonneg_r; lia).
  assert (He2 : (200 * n * S' - S) * t <= 2 * (n' * S) * t)
    by (apply Z.mul_le_mono_nonneg_r; lia).
  assert (Hup : (2 * n' + S') * (S * t) <= A * (200 * c + t) + 100 * (t * S') + S * t).
  { subst A. nia. }
  assert (Hlo : A * (200 * c + t) - 100 * (t * S') - S * t <= (2 * n' + S') * (S * t)).
  { subst A. nia. }
  assert (HAK : A * (2 * t * K) = (2 * S' * K) * (S * t)) by (subst A; ring).
  assert (HAt : A * (2 * t) = (2 * S') * (S * t)) by (subst A; ring).
  assert (HAt1 : A <= A * t) by nia.
  assert (Hle : (2 * n' + S') / (2 * S') <= K).
  { apply Z.lt_succ_r. apply Z.div_lt_upper_bound; [lia |].
    apply (Z.mul_lt_mono_pos_r (S * t)); [lia |].
    assert (A * (2 * (100 * c) + t) < A * (2 * t * K + 2 * t))
      by (apply Z.mul_lt_mono_pos_l; lia).
    nia. }
  split; [split |].
  - apply Z.div_le_lower_bound; [lia |].
    apply (Z.mul_le_mono_pos_r _ _ (S * t)); [lia |].
    assert (A * (2 * t * K) <= A * (2 * (100 * c) + t))
      by (apply Z.mul_le_mono_nonneg_l; lia).
    nia.
  - exact Hle.
  - intros Hhalf.
    assert (HK' : 2 * t * K + 1 <= 2 * (100 * c) + t).
    { destruct (Z.eq_dec (2 * t * K) (2 * (100 * c) + t)) as [Heq | Hne]; [| lia].
      exfalso. apply Hhalf.
      replace (2 * (100 * c)) with (t + (K - 1) * (2 * t)) by lia.
      rewrite Z.mod_add by lia. apply Z.mod_small. lia. }
    apply Z.le_antisymm; [exact Hle |].
    apply Z.div_le_lower_bound; [lia |].
    apply (Z.mul_le_mono_pos_r _ _ (S * t)); [lia |].
    assert (A * (2 * t * K + 1) <= A * (2 * (100 * c) + t))
      by (apply Z.mul_le_mono_nonneg_l; lia).
    nia.
Qed.

Lemma div_of_Z (a b : Z) : 0 < b -> div (of_Z a) (of_Z b) = round a b.
Proof.
  intros Hb. unfold div, of_Z. simpl mant. simpl expo.
  change (pow2 (0 - 0)) with 1. change (pow2 (- (0 - 0))) with 1.
  rewrite Z.sgn_pos, Z.abs_eq by lia. f_equal; lia.
Qed.

Lemma mul_100 (n s : Z) :
  0 < s -> mul (mk n (- s)) (of_Z 100) = round (100 * n) (2 ^ s).
Proof.
  intros Hs. unfold mul, of_Z. simpl mant. simpl expo.
  rewrite (pow2_nonpos (- s + 0)) by lia.
  rewrite (pow2_nonneg (- (- s + 0))) by lia.
  f_equal; [lia | f_equal; lia].
Qed.

Lemma Math_round_scaled (n s : Z) :
  0 < s -> Math_round (mk n (- s)) = (2 * n + 2 ^ s) / (2 * 2 ^ s).
Proof.
  intros Hs. unfold Math_round. simpl mant. simpl expo.
  rewrite (pow2_nonpos (- s)) by lia.
  rewrite (pow2_nonneg (- - s)) by lia.
  rewrite Z.opp_involutive. f_equal. lia.
Qed.

Lemma percent_zero (t : Z) : 0 < t -> percent 0 t = 0.
Proof.
  intros Ht. unfold percent. rewrite div_of_Z by done. reflexivity.
Qed.

(** [Math.round((c / t) * 100)] against the exactly rounded percentage:
    never above it, at most one below it, and equal to it unless the exact
    percentage lies half-way between two integers. *)
Lemma percent_rounds (c t : Z) :
  0 <= c < 2 ^ 44 -> 0 < t ->
  round_exact (100 * c) t - 1 <= percent c t <= round_exact (100 * c) t
  /\ (~ halfway (100 * c) t -> percent c t = round_exact (100 * c) t).
Proof.
  intros [Hc0 Hc] Ht.
  destruct (Z.eq_dec c 0) as [-> | Hnz].
  { rewrite percent_zero by done. unfold round_exact.
    rewrite Z.mul_0_r, Z.mul_0_r, Z.add_0_l.
    rewrite (Z.div_small t (2 * t)) by lia. lia. }
  assert (Hlt : c < 2 ^ 52 * t).
  { change (2 ^ 44) with 17592186044416 in Hc.
    change (2 ^ 52) with 4503599627370496. nia. }
  destruct (round_spec c t ltac:(lia) Ht Hlt) as (s & n & Hs & Hq & Hq1 & Hq2 & Hqn).
  assert (HS : 0 < 2 ^ s) by (apply Z.pow_pos_nonneg; lia).
  assert (Hn_pos : 0 < n).
  { change (2 ^ 52) with 4503599627370496 in Hq1. nia. }
  assert (Hlt' : 100 * n < 2 ^ 52 * 2 ^ s).
  { change (2 ^ 44) with 17592186044416 in Hc.
    change (2 ^ 52) with 4503599627370496.
    assert (Hs2 : 2 <= 2 ^ s).
    { change 2 with (2 ^ 1) at 1. apply Z.pow_le_mono_r; lia. }
    assert (c * 2 ^ s <= 17592186044415 * 2 ^ s)
      by (apply Z.mul_le_mono_nonneg_r; lia).
    assert (n * t <= (17592186044415 * 2 ^ s + 1) * t) by nia.
    assert (n <= 17592186044415 * 2 ^ s + 1).
    { apply (Z.mul_le_mono_pos_r _ _ t); lia. }
    lia. }
  destruct (round_spec (100 * n) (2 ^ s) ltac:(lia) HS Hlt')
    as (s' & n' & Hs' & Hp & Hp1 & Hp2 & Hpn).
  assert (HS' : 0 < 2 ^ s') by (apply Z.pow_pos_nonneg; lia).
  unfold percent. rewrite div_of_Z, Hq, mul_100, Hp, Math_round_scaled by done.
  apply (percent_core c t (2 ^ s) (2 ^ s') n n'); try done; lia.
Qed.

Lemma percent_bounds (c t : Z) :
  0 <= c <= t -> t < 2 ^ 44 -> 0 <= percent c t <= 100.
Proof.
  intros [Hc0 Hct] Ht.
  assert (Htpos : 0 < t \/ t = 0) by lia.
  destruct Htpos as [Htpos | ->].
  2:{ assert (c = 0) as -> by lia. by vm_compute. }
  destruct (percent_rounds c t ltac:(lia) Htpos) as [[Hlo Hhi] Hexact].
  assert (HK : 0 <= round_exact (100 * c) t <= 100).
  { unfold round_exact. split.
    - apply Z.div_pos; lia.
    - apply Z.lt_succ_r. apply Z.div_lt_upper_bound; lia. }
  split; [| lia].
  destruct (Z.eq_dec (round_exact (100 * c) t) 0) as [Hz | Hnz]; [| lia].
  rewrite Hexact; [lia |].
  unfold halfway. intros Hhalf.
  assert (Hsmall : 2 * (100 * c) + t < 2 * t).
  { unfold round_exact in Hz.
    apply Z.div_small_iff in Hz; lia. }
  rewrite Z.mod_small in Hhalf by lia. lia.
Qed.

End DoubleFacts.

(** ** Statistics *)

Lemma stats_completed (dailyKey monthlyKey : string) (goals : list Goal.t) :
  dailyDone (stats dailyKey monthlyKey goals)
  + monthlyDone (stats dailyKey monthlyKey goals)
  + anytimeDone (stats dailyKey monthlyKey goals)
  = totalComplete dailyKey monthlyKey goals.
Proof.
  unfold stats, totalComplete, goalsOfType, Array_length. simpl.
  induction goals as [|goal rest IH]; [reflexivity |].
  simpl. destruct (Goal.type goal) eqn:Hty; simpl;
    destruct (isGoalComplete goal _); simpl length; lia.
Qed.

Lemma totalComplete_bounds (dailyKey monthlyKey : string) (goals : list Goal.t) :
  0 ≤ totalComplete dailyKey monthlyKey goals ≤ Array_length goals.
Proof.
  unfold totalComplete, Array_length. split; [lia |].
  apply Nat2Z.inj_le. apply List.filter_length_le.
Qed.

Lemma stats_completionRate (dailyKey monthlyKey : string) (goals : list Goal.t) :
  completionRate (stats dailyKey monthlyKey goals)
  = if negb (Array_length goals =? 0)
    then Double.percent (totalComplete dailyKey monthlyKey goals) (Array_length goals)
    else 0.
Proof.
  rewrite <- stats_completed. reflexivity.
Qed.

(** C5, as stated, fails when 23 of 40 goals are complete: the exact
    percentage is 57.5, which rounds to 58 (whether a tie goes up or to the
    even neighbour), and the page shows 57.  The double nearest to 23/40
    is a little below 0.575, and its product with 100 is the double
    57.49999999999999 (see [binary64_23_40]). *)
Lemma completionRate_counterexample :
  totalGoals (statsAt jan5 fortyGoals) = 40
  ∧ dailyDone (statsAt jan5 fortyGoals) + monthlyDone (statsAt jan5 fortyGoals)
    + anytimeDone (statsAt jan5 fortyGoals) = 23
  ∧ 2 * (100 * 23) = 115 * 40
  ∧ round_exact (100 * 23) 40 = 58
  ∧ Double.nearest_even (100 * 23) 40 = 58
  ∧ completionRate (statsAt jan5 fortyGoals) = 57
  ∧ completionRate (statsAt jan5 fortyGoals) ≠ round_exact (100 * 23) 40.
Proof. vm_compute. repeat split; discriminate. Qed.

(** C5, amended.  For a list of fewer than 2^32 goals (every JavaScript
    array is one), totalComplete being the number of goals complete for the
    current period key of their type, summed over the three types:
    completionRate is 0 when the list is empty; otherwise it is
    [Math.round] of the double [(totalComplete / totalGoals) * 100], which
    is round(100 * totalComplete / totalGoals) whenever that percentage is
    not exactly half-way between two integers, and at a half-way percentage
    is that value or one less.  It is always between 0 and 100. *)
Theorem completionRate_spec (dailyKey monthlyKey : string) (goals : list Goal.t) :
  Array_length goals < 2 ^ 32 →
  let s := stats dailyKey monthlyKey goals in
  let completed := dailyDone s + monthlyDone s + anytimeDone s in
  completed = totalComplete dailyKey monthlyKey goals
  ∧ (goals = [] → completionRate s = 0)
  ∧ (goals ≠ [] →
     completionRate s = Double.percent completed (totalGoals s)
     ∧ round_exact (100 * completed) (totalGoals s) - 1 ≤ completionRate s
     ∧ completionRate s ≤ round_exact (100 * completed) (totalGoals s)
     ∧ (¬ halfway (100 * completed) (totalGoals s) →
        completionRate s = round_exact (100 * completed) (totalGoals s)))
  ∧ 0 ≤ completionRate s ≤ 100.
Proof.
  intros Hlen s completed.
  assert (Hcompleted : completed = totalComplete dailyKey monthlyKey goals)
    by apply stats_completed.
  assert (Htotal : totalGoals s = Array_length goals) by reflexivity.
  pose proof (totalComplete_bounds dailyKey monthlyKey goals) as Hbounds.
  assert (Hrate : completionRate s
                  = if negb (Array_length goals =? 0)
                    then Double.percent completed (Array_length goals) else 0).
  { rewrite Hcompleted. apply stats_completionRate. }
  assert (Hsmall : Array_length goals < 2 ^ 44).
  { eapply Z.lt_trans; [exact Hlen | reflexivity]. }
  split; [exact Hcompleted |].
  split; [by intros -> |].
  split.
  - intros Hne.
    assert (Hpos : 0 < Array_length goals).
    { destruct goals; [done |]. unfold Array_length. simpl length. lia. }
    rewrite Hrate, Htotal.
    destruct (Z.eqb_spec (Array_length goals) 0) as [Hz | _]; [lia |]. simpl.
    split; [reflexivity |].
    destruct (percent_rounds completed (Array_length goals)) as [[Hlo Hhi] Hexact];
      [lia | lia |]. auto.
  - rewrite Hrate.
    destruct (Z.eqb_spec (Array_length goals) 0) as [Hz | _]; simpl; [lia |].
    apply percent_bounds; lia.
Qed.

Lemma completionRate_spec_witness :
  completionRate (statsAt jan5 []) = 0
  ∧ completionRate (statsAt jan5 [walk; read]) = 0
  ∧ 0 ≤ completionRate (statsAt jan5 fortyGoals) ≤ 100.
Proof.
  split; [| split].
  - destruct (completionRate_spec (getPeriodKey daily jan5) (getPeriodKey monthly jan5) [])
      as (_ & Hempty & _); [reflexivity |].
    apply Hempty. reflexivity.
  - destruct (completionRate_spec (getPeriodKey daily jan5) (getPeriodKey monthly jan5)
                [walk; read]) as (_ & _ & Hrate & _); [reflexivity |].
    destruct Hrate as (_ & _ & _ & Hexact); [discriminate |].
    unfold statsAt. rewrite Hexact; [reflexivity |].
    vm_compute. discriminate.
  - destruct (completionRate_spec (getPeriodKey daily jan5) (getPeriodKey monthly jan5)
                fortyGoals) as (_ & _ & _ & Hbounds);
      [reflexivity |].
    exact Hbounds.
Defined.

(** ** The goal card *)

Lemma GoalCard_progress (goal : Goal.t) (periodKey : string) (tgt : Z) :
  getTargetForGoal goal = Some tgt →
  progress (GoalCard goal periodKey)
  = Z.min 100 (Double.percent (getCountForPeriod goal periodKey) tgt)
  ∧ progressBar (GoalCard goal periodKey)
    = Some (Z.min 100 (Double.percent (getCountForPeriod goal periodKey) tgt)).
Proof.
  intros Htarget. pose proof (getTargetForGoal_truthy goal tgt Htarget) as Hnz.
  unfold GoalCard. simpl. rewrite Htarget. simpl.
  destruct (Z.eqb_spec tgt 0); [done |]. split; reflexivity.
Qed.

(** [n] check-ins in a row, on the day [now]. *)
Lemma Adjust_iter_count (now : Date) (goalId : string) (n : nat) (st : Store)
    (i : nat) (goal : Goal.t) :
  goals st !! i = Some goal →
  Goal.id goal = goalId →
  0 ≤ getCountForPeriod goal (getPeriodKey (Goal.type goal) now) →
  ∃ goal',
    goals (Nat.iter n (Adjust now goalId 1) st) !! i = Some goal'
    ∧ Goal.id goal' = goalId
    ∧ Goal.type goal' = Goal.type goal
    ∧ Goal.targetCount goal' = Goal.targetCount goal
    ∧ getCountForPeriod goal' (getPeriodKey (Goal.type goal) now)
      = getCountForPeriod goal (getPeriodKey (Goal.type goal) now) + Z.of_nat n.
Proof.
  intros Hi Hid Hcount. induction n as [|n IH].
  - exists goal. simpl. repeat split; try done. lia.
  - destruct IH as (g & Hg & Hgid & Hgty & Hgtc & Hgcount).
    exists (adjusted now goalId 1 g). simpl Nat.iter. split.
    + simpl. by apply updateGoalCount_lookup.
    + rewrite adjusted_match by done. simpl. repeat split; try done.
      unfold getCountForPeriod in *. simpl. rewrite Hgty.
      rewrite lookup_insert_eq. simpl. lia.
Qed.

(** C6, as stated, fails on a goal with target 40 and count 23: the exact
    percentage 57.5 rounds to 58, and the card shows 57. *)
Lemma ProgressPct_counterexample :
  getTargetForGoal pushups = Some 40
  ∧ getCountForPeriod pushups (getPeriodKey (Goal.type pushups) jan5) = 23
  ∧ 2 * (100 * 23) = 115 * 40
  ∧ Z.min 100 (round_exact (100 * 23) 40) = 58
  ∧ Z.min 100 (Double.nearest_even (100 * 23) 40) = 58
  ∧ ProgressPct jan5 pushups = Some 57
  ∧ ProgressPct jan5 pushups ≠ Some (Z.min 100 (round_exact (100 * 23) 40)).
Proof. vm_compute. repeat split; discriminate. Qed.

(** C6, amended.  For a goal with a defined target, Progress% is
    [min(100, Math.round(double))] where the double is
    [(count / target) * 100] and count is the entry at the period key, or 0
    when absent.  For a count from 0 to below 2^44 and a positive target
    this is min(100, round(100 * count / target)) whenever
    100 * count / target is not exactly half-way between two integers, and
    at a half-way value it is that or one less.  In particular a daily
    goal with targetCount 4 and no check-in today is, after 4 increments,
    complete with Progress% 100, and has Progress% 75 after 3. *)
Theorem ProgressPct_spec (goal : Goal.t) (periodKey : string) (tgt : Z) :
  getTargetForGoal goal = Some tgt →
  let count := getCountForPeriod goal periodKey in
  count = default 0 (Goal.entries goal !! periodKey)
  ∧ progressBar (GoalCard goal periodKey) = Some (Z.min 100 (Double.percent count tgt))
  ∧ (0 ≤ count < 2 ^ 44 → 0 < tgt →
     ∃ pct : Z,
       progressBar (GoalCard goal periodKey) = Some pct
       ∧ Z.min 100 (round_exact (100 * count) tgt - 1) ≤ pct
       ∧ pct ≤ Z.min 100 (round_exact (100 * count) tgt)
       ∧ (¬ halfway (100 * count) tgt →
          pct = Z.min 100 (round_exact (100 * count) tgt)))
  ∧ (∀ (now : Date) (st : Store) (i : nat),
       goals st !! i = Some goal →
       Goal.type goal = daily →
       Goal.targetCount goal = Some 4 →
       getCountForPeriod goal (getPeriodKey daily now) = 0 →
       ∃ after3 after4 : Goal.t,
         goals (Nat.iter 3 (Adjust now (Goal.id goal) 1) st) !! i = Some after3
         ∧ ProgressPct now after3 = Some 75
         ∧ goals (Nat.iter 4 (Adjust now (Goal.id goal) 1) st) !! i = Some after4
         ∧ isGoalComplete after4 (getPeriodKey daily now) = true
         ∧ ProgressPct now after4 = Some 100).
Proof.
  intros Htarget count.
  destruct (GoalCard_progress goal periodKey tgt Htarget) as [_ Hbar].
  fold count in Hbar.
  split; [reflexivity |]. split; [exact Hbar |]. split.
  - intros Hcount Htgt. exists (Z.min 100 (Double.percent count tgt)).
    split; [exact Hbar |].
    destruct (percent_rounds count tgt Hcount Htgt) as [[Hlo Hhi] Hexact].
    split; [lia |]. split; [lia |].
    intros Hhalf. by rewrite Hexact.
  - intros now st i Hi Hty Htc Hzero.
    assert (Hafter : ∀ n : nat,
      ∃ goal', goals (Nat.iter n (Adjust now (Goal.id goal) 1) st) !! i = Some goal'
        ∧ Goal.type goal' = daily
        ∧ getTargetForGoal goal' = Some 4
        ∧ getCountForPeriod goal' (getPeriodKey daily now) = Z.of_nat n).
    { intros n.
      destruct (Adjust_iter_count now (Goal.id goal) n st i goal Hi eq_refl)
        as (g & Hg & _ & Hgty & Hgtc & Hgcount); [rewrite Hty, Hzero; lia |].
      exists g. rewrite Hty in *. rewrite Hzero in Hgcount.
      repeat split; try done.
      apply getTargetForGoal_nonzero; [congruence | lia]. }
    destruct (Hafter 3%nat) as (g3 & Hg3 & Hty3 & Htgt3 & Hcount3).
    destruct (Hafter 4%nat) as (g4 & Hg4 & Hty4 & Htgt4 & Hcount4).
    exists g3, g4.
    split; [exact Hg3 |]. split.
    { unfold ProgressPct. rewrite Hty3.
      rewrite (proj2 (GoalCard_progress g3 _ 4 Htgt3)), Hcount3. reflexivity. }
    split; [exact Hg4 |]. split.
    { unfold isGoalComplete. rewrite Htgt4, Hcount4. reflexivity. }
    unfold ProgressPct. rewrite Hty4.
    rewrite (proj2 (GoalCard_progress g4 _ 4 Htgt4)), Hcount4. reflexivity.
Qed.

Lemma ProgressPct_spec_witness :
  progressBar (GoalCard walk "2026-01-04") = Some 50
  ∧ ∃ after3 after4 : Goal.t,
      goals (Nat.iter 3 (Adjust jan5 "g1" 1) sampleStore) !! 0%nat = Some after3
      ∧ ProgressPct jan5 after3 = Some 75
      ∧ goals (Nat.iter 4 (Adjust jan5 "g1" 1) sampleStore) !! 0%nat = Some after4
      ∧ isGoalComplete after4 "2026-01-05" = true
      ∧ ProgressPct jan5 after4 = Some 100.
Proof.
  destruct (ProgressPct_spec walk "2026-01-04" 4 eq_refl)
    as (_ & _ & Hexact & _).
  destruct (ProgressPct_spec walk "2026-01-05" 4 eq_refl)
    as (_ & _ & _ & Hsteps).
  split.
  - destruct Hexact as (pct & Hbar & _ & _ & Hpct); [by vm_compute | lia |].
    rewrite Hbar, Hpct; [reflexivity |]. vm_compute. discriminate.
  - apply (Hsteps jan5 sampleStore 0%nat); reflexivity.
Defined.

(** * Further properties of the store *)

(** ** Delete *)

Lemma deleteGoal_filter (goalId : string) (current : list Goal.t) (goal : Goal.t) :
  goal ∈ deleteGoal goalId current ↔ goal ∈ current ∧ Goal.id goal ≠ goalId.
Proof.
  unfold deleteGoal. rewrite !list_elem_of_In, filter_In, bool_decide_eq_true.
  reflexivity.
Qed.

Lemma deleteGoal_sublist (goalId : string) (current : list Goal.t) :
  sublist (deleteGoal goalId current) current.
Proof.
  unfold deleteGoal. induction current as [|g rest IH]; simpl; [done |].
  case_bool_decide; [by apply sublist_skip | by apply sublist_cons].
Qed.

Lemma deleteGoal_absent (goalId : string) (current : list Goal.t) :
  Forall (λ goal, Goal.id goal ≠ goalId) current →
  deleteGoal goalId current = current.
Proof.
  unfold deleteGoal. induction 1 as [|g rest Hg _ IH]; simpl; [done |].
  rewrite bool_decide_eq_true_2 by done. by rewrite IH.
Qed.

(** X1.  Deleting an id that no goal has leaves the whole state as it
    is. *)
Theorem Delete_absent (goalId : string) (st : Store) :
  Forall (λ goal, Goal.id goal ≠ goalId) (goals st) →
  Delete goalId st = st.
Proof.
  intros Habsent. destruct st as [gs f l]. unfold Delete. simpl in *.
  by rewrite deleteGoal_absent.
Qed.

Lemma Delete_absent_witness : Delete "nobody" sampleStore = sampleStore.
Proof.
  apply (Delete_absent "nobody" sampleStore).
  repeat constructor; vm_compute; discriminate.
Defined.

(** X2.  After a delete no goal with the id is left (every goal with it
    goes, not only the first), the goals with another id all stay, in their
    old order, and the list is no longer than before. *)
Theorem Delete_removes (goalId : string) (st : Store) :
  Forall (λ goal, Goal.id goal ≠ goalId) (goals (Delete goalId st))
  ∧ (∀ goal : Goal.t,
       goal ∈ goals (Delete goalId st) ↔ goal ∈ goals st ∧ Goal.id goal ≠ goalId)
  ∧ sublist (goals (Delete goalId st)) (goals st)
  ∧ (length (goals (Delete goalId st)) ≤ length (goals st))%nat
  ∧ Delete goalId (Delete goalId st) = Delete goalId st.
Proof.
  assert (Hmem : ∀ goal, goal ∈ goals (Delete goalId st)
                         ↔ goal ∈ goals st ∧ Goal.id goal ≠ goalId)
    by (intros goal; apply deleteGoal_filter).
  assert (Hclean : Forall (λ goal, Goal.id goal ≠ goalId) (goals (Delete goalId st))).
  { apply Forall_forall. intros goal Hin. by apply Hmem in Hin as [_ ?]. }
  assert (Hsub : sublist (goals (Delete goalId st)) (goals st)).
  { apply deleteGoal_sublist. }
  split; [exact Hclean |]. split; [exact Hmem |]. split; [exact Hsub |].
  split; [by apply sublist_length |].
  destruct st as [gs f l]. unfold Delete in *. simpl in *.
  by rewrite deleteGoal_absent.
Qed.

(** X3.  Deleting a goal just created, under its id, gives back the old
    list, when the id was new to the list. *)
Theorem Delete_Create (env : Env) (title : string) (type : GoalType)
    (notes targetCount dueDate : string) (st : Store) :
  Forall (λ goal, Goal.id goal ≠ randomUUID env) (goals st) →
  goals (Delete (randomUUID env) (Create env title type notes targetCount dueDate st))
  = goals st.
Proof.
  intros Hfresh.
  assert (Hold : deleteGoal (randomUUID env) (goals st) = goals st).
  { by apply deleteGoal_absent. }
  unfold Create, handleSubmit. simpl.
  destruct (nonempty (trim title)); simpl; [| exact Hold].
  rewrite bool_decide_eq_false_2 by (intros H; by apply H).
  exact Hold.
Qed.

Lemma Delete_Create_witness :
  goals (Delete "7f3c" (Create sampleEnv "Hike" monthly "" "4" "" sampleStore))
  = goals sampleStore.
Proof.
  apply (Delete_Create sampleEnv "Hike" monthly "" "4" "" sampleStore).
  repeat constructor; vm_compute; discriminate.
Defined.

(** X4.  Adjusting the goals of an id and then deleting that id is the
    same as deleting it; for two different ids, adjusting one and deleting
    the other can be done in either order. *)
Theorem Delete_Adjust (now : Date) (goalId other : string) (delta : Z) (st : Store) :
  Delete goalId (Adjust now goalId delta st) = Delete goalId st
  ∧ (other ≠ goalId →
     Delete other (Adjust now goalId delta st)
     = Adjust now goalId delta (Delete other st)).
Proof.
  destruct st as [gs f l]. unfold Delete, Adjust. simpl. split.
  - f_equal. rewrite updateGoalCount_map. unfold deleteGoal.
    induction gs as [|g rest IH]; simpl; [done |].
    destruct (decide (Goal.id g = goalId)) as [Hid | Hid].
    + rewrite adjusted_match by done. simpl.
      rewrite !bool_decide_eq_false_2 by (intros H; by apply H). exact IH.
    + rewrite adjusted_other by done.
      rewrite !bool_decide_eq_true_2 by done. by rewrite IH.
  - intros Hne. f_equal. rewrite !updateGoalCount_map. unfold deleteGoal.
    induction gs as [|g rest IH]; simpl; [done |].
    assert (Hsame : Goal.id (adjusted now goalId delta g) = Goal.id g).
    { unfold adjusted. by case_decide. }
    rewrite Hsame. case_bool_decide; simpl; by rewrite IH.
Qed.

Lemma Delete_Adjust_witness :
  Delete "g2" (Adjust jan5 "g1" 1 sampleStore)
  = Adjust jan5 "g1" 1 (Delete "g2" sampleStore).
Proof.
  apply (proj2 (Delete_Adjust jan5 "g1" "g2" 1 sampleStore)).
  vm_compute. discriminate.
Defined.

(** ** The form *)

(** X5.  Submitting twice in a row adds at most one goal: after a submit
    that added a goal the form is empty, and after one that was refused
    nothing has changed, so the second submit changes nothing. *)
Theorem handleSubmit_twice (env1 env2 : Env) (st : Store) :
  handleSubmit env2 (handleSubmit env1 st) = handleSubmit env1 st.
Proof.
  destruct (nonempty (trim (GoalForm.title (form st)))) eqn:Htitle.
  - apply nonempty_true in Htitle.
    rewrite (handleSubmit_titled env1 st Htitle).
    by apply handleSubmit_blank.
  - apply nonempty_false in Htitle.
    rewrite (handleSubmit_blank env1 st Htitle).
    by apply handleSubmit_blank.
Qed.

(** X6.  Editing the form never touches the goal list; edits of two
    different fields can be made in either order, and of two edits of the
    same field the later one stands.  Typing the five fields and
    submitting is Create with those values. *)
Theorem handleChange_compose (c1 c2 : FormChange) (st : Store) :
  goals (handleChange c1 st) = goals st
  ∧ (fieldOf c1 ≠ fieldOf c2 →
     handleChange c1 (handleChange c2 st) = handleChange c2 (handleChange c1 st))
  ∧ (fieldOf c1 = fieldOf c2 →
     handleChange c1 (handleChange c2 st) = handleChange c1 st)
  ∧ ∀ (env : Env) (title : string) (type : GoalType)
      (notes targetCount dueDate : string),
      handleSubmit env
        (handleChange (SetDueDate dueDate)
           (handleChange (SetTargetCount targetCount)
              (handleChange (SetNotes notes)
                 (handleChange (SetType type)
                    (handleChange (SetTitle title) st)))))
      = Create env title type notes targetCount dueDate st.
Proof.
  split; [reflexivity |]. split; [| split].
  - intros Hne. destruct c1, c2; try reflexivity; by destruct Hne.
  - intros Heq. destruct c1, c2; try reflexivity; discriminate Heq.
  - reflexivity.
Qed.

Lemma handleChange_compose_witness :
  handleChange (SetTitle "Hike") (handleChange (SetNotes "up") sampleStore)
  = handleChange (SetNotes "up") (handleChange (SetTitle "Hike") sampleStore).
Proof.
  apply (proj1 (proj2 (handleChange_compose (SetTitle "Hike") (SetNotes "up")
                         sampleStore))).
  discriminate.
Defined.

(** ** Trimming *)

Lemma trimStart_clean (s : string) : startsWithWhiteSpace (trimStart s) = false.
Proof.
  induction s as [|c s IH]; simpl; [done |].
  destruct (isWhiteSpace c) eqn:Hc; [exact IH | simpl; exact Hc].
Qed.

Lemma trimStart_id (s : string) :
  startsWithWhiteSpace s = false → trimStart s = s.
Proof. destruct s as [|c s]; simpl; [done |]. by intros ->. Qed.

Lemma trimEnd_clean (s : string) : endsWithWhiteSpace (trimEnd s) = false.
Proof.
  induction s as [|c s IH]; simpl; [done |].
  destruct (trimEnd s) as [|d r] eqn:Hr.
  - destruct (isWhiteSpace c) eqn:Hc; simpl; [done | exact Hc].
  - exact IH.
Qed.

Lemma trimEnd_keeps_start (s : string) :
  startsWithWhiteSpace s = false → startsWithWhiteSpace (trimEnd s) = false.
Proof.
  destruct s as [|c s]; simpl; [done |]. intros Hc.
  destruct (trimEnd s); [by rewrite Hc | done].
Qed.

Lemma trimEnd_idemp (s : string) : trimEnd (trimEnd s) = trimEnd s.
Proof.
  induction s as [|c s IH]; simpl; [done |].
  destruct (trimEnd s) as [|d r] eqn:Hr.
  - destruct (isWhiteSpace c) eqn:Hc; simpl; [done | by rewrite Hc].
  - simpl in IH. simpl. destruct (trimEnd r) as [|d' r'] eqn:Hr'.
    + destruct (isWhiteSpace d); [discriminate | by rewrite IH].
    + by rewrite IH.
Qed.

Lemma trimStart_blank (s : string) : trimStart s = "" ↔ allWhiteSpace s = true.
Proof.
  induction s as [|c s IH]; simpl; [done |].
  destruct (isWhiteSpace c); simpl; [exact IH | split; discriminate].
Qed.

Lemma trimEnd_blank (s : string) : trimEnd s = "" ↔ allWhiteSpace s = true.
Proof.
  induction s as [|c s IH]; simpl; [done |].
  destruct (trimEnd s) as [|d r] eqn:Hr.
  - destruct (isWhiteSpace c); simpl.
    + split; [intros _; by apply IH | done].
    + split; discriminate.
  - split; [discriminate |]. intros [_ H]%andb_true_iff.
    apply IH in H. discriminate.
Qed.

Lemma allWhiteSpace_trimStart (s : string) :
  allWhiteSpace (trimStart s) = allWhiteSpace s.
Proof.
  induction s as [|c s IH]; simpl; [done |].
  destruct (isWhiteSpace c) eqn:Hc; simpl; [exact IH | by rewrite Hc].
Qed.

Lemma trim_blank_iff (s : string) : trim s = "" ↔ allWhiteSpace s = true.
Proof.
  unfold trim. rewrite trimEnd_blank, allWhiteSpace_trimStart. reflexivity.
Qed.

(** A trimmed string neither starts nor ends with white space, and
    trimming it again changes nothing. *)
Lemma trim_clean (s : string) :
  startsWithWhiteSpace (trim s) = false
  ∧ endsWithWhiteSpace (trim s) = false
  ∧ trim (trim s) = trim s.
Proof.
  assert (Hstart : startsWithWhiteSpace (trim s) = false).
  { unfold trim. apply trimEnd_keeps_start, trimStart_clean. }
  split; [exact Hstart |]. split; [apply trimEnd_clean |].
  unfold trim at 1. rewrite (trimStart_id _ Hstart).
  unfold trim. apply trimEnd_idemp.
Qed.

(** X7.  A title that consists only of TAB, LF, VT, FF, CR, SPACE and NBSP
    (the empty title included) is refused: Create leaves the goal list
    unchanged.  Whenever Create does change the list, it has prepended one
    goal whose title is not empty and has none of these characters at
    either end. *)
Theorem Create_blank_title (env : Env) (title : string) (type : GoalType)
    (notes targetCount dueDate : string) (st : Store) :
  (allWhiteSpace title = true →
     goals (Create env title type notes targetCount dueDate st) = goals st)
  ∧ (goals (Create env title type notes targetCount dueDate st) ≠ goals st →
     ∃ goal : Goal.t,
       goals (Create env title type notes targetCount dueDate st) = goal :: goals st
       ∧ Goal.title goal ≠ ""
       ∧ startsWithWhiteSpace (Goal.title goal) = false
       ∧ endsWithWhiteSpace (Goal.title goal) = false).
Proof.
  pose proof (trim_blank_iff title) as Hblank.
  unfold Create, handleSubmit. simpl.
  destruct (nonempty (trim title)) eqn:Hne; simpl.
  - apply nonempty_true in Hne. split.
    + intros Hall. exfalso. by apply Hne, Hblank.
    + intros _. eexists. split; [reflexivity |]. simpl.
      split; [exact Hne |]. split; apply trim_clean.
  - split; [done |]. intros Hchanged. by destruct Hchanged.
Qed.

Lemma Create_blank_title_witness :
  goals (Create sampleEnv (String "009"%char "  ") daily "" "" "" sampleStore)
  = goals sampleStore
  ∧ ∃ goal : Goal.t,
      goals (Create sampleEnv "  Hike " monthly "" "" "" sampleStore)
      = goal :: goals sampleStore
      ∧ Goal.title goal ≠ "".
Proof.
  split.
  - apply (proj1 (Create_blank_title sampleEnv (String "009"%char "  ") daily
                    "" "" "" sampleStore)).
    reflexivity.
  - destruct (proj2 (Create_blank_title sampleEnv "  Hike " monthly "" "" ""
                       sampleStore))
      as (goal & Hgoals & Htitle & _).
    + intros Heq. apply (f_equal (@length _)) in Heq. discriminate Heq.
    + exists goal. split; assumption.
Defined.

(** ** Reading the target count *)

Lemma pretty_N_char_cases (d : N) :
  pretty_N_char d ∈ ["0"; "1"; "2"; "3"; "4"; "5"; "6"; "7"; "8"; "9"]%char.
Proof. unfold pretty_N_char. repeat case_match; set_solver. Qed.

Lemma digit_value_pretty_N_char (d : N) :
  (d < 10)%N → digit_value (pretty_N_char d) = Some (Z.of_N d).
Proof.
  intros Hd.
  assert (Hcases : (d = 0 ∨ d = 1 ∨ d = 2 ∨ d = 3 ∨ d = 4 ∨ d = 5 ∨ d = 6
                    ∨ d = 7 ∨ d = 8 ∨ d = 9)%N) by lia.
  repeat (destruct Hcases as [-> | Hcases]; [reflexivity |]).
  subst. reflexivity.
Qed.

(** The digits that [pretty] writes for [x] are read back as [x], after
    whatever was read before. *)
Lemma parseDigits_pretty_N_go (x : N) :
  (0 < x)%N →
  ∃ k : Z, 0 ≤ k ∧ ∀ (s : string) (acc : option Z),
    parseDigits (pretty_N_go x s) acc
    = parseDigits s (Some (default 0 acc * 10 ^ k + Z.of_N x)).
Proof.
  induction (N.lt_wf_0 x) as [x _ IH]. intros Hx.
  assert (Hr : (x `mod` 10 < 10)%N) by (apply N.mod_lt; lia).
  assert (Hdm : x = (10 * (x `div` 10) + x `mod` 10)%N) by (apply N.div_mod; lia).
  destruct (decide (x `div` 10 = 0)%N) as [Hq | Hq].
  - exists 1. split; [lia |]. intros s acc.
    rewrite pretty_N_go_step, Hq, pretty_N_go_0 by done. simpl.
    rewrite digit_value_pretty_N_char by done. f_equal. f_equal. lia.
  - destruct (IH (x `div` 10)%N) as (k & Hk & Hgo).
    { apply N.div_lt; [exact Hx | reflexivity]. }
    { destruct (x `div` 10)%N; [done | lia]. }
    exists (k + 1). split; [lia |]. intros s acc.
    rewrite pretty_N_go_step, Hgo by done. simpl.
    rewrite digit_value_pretty_N_char by done. f_equal. f_equal.
    rewrite Z.pow_add_r by lia. lia.
Qed.

Lemma pretty_N_go_head (x : N) :
  (0 < x)%N →
  ∀ s : string, ∃ (d : N) (rest : string),
    pretty_N_go x s = String (pretty_N_char d) rest.
Proof.
  induction (N.lt_wf_0 x) as [x _ IH]. intros Hx s.
  rewrite pretty_N_go_step by done.
  destruct (decide (x `div` 10 = 0)%N) as [Hq | Hq].
  - rewrite Hq, pretty_N_go_0. eauto.
  - apply IH; [apply N.div_lt; [exact Hx | reflexivity] |].
    destruct (x `div` 10)%N; [done | lia].
Qed.

Lemma parseInt10_digit_head (d : N) (rest : string) :
  parseInt10 (String (pretty_N_char d) rest)
  = match parseDigits (String (pretty_N_char d) rest) None with
    | Some n => Int n
    | None => NaN
    end.
Proof.
  pose proof (pretty_N_char_cases d) as Hc.
  repeat (apply elem_of_cons in Hc as [-> | Hc];
          [unfold parseInt10; simpl; by destruct (parseDigits rest _) as [[]|] |]).
  by apply elem_of_nil in Hc.
Qed.

Lemma parseInt10_pretty_pos (p : positive) :
  parseInt10 (pretty (N.pos p)) = Int (Z.pos p)
  ∧ parseInt10 ("-" +:+ pretty (N.pos p)) = Int (Z.neg p).
Proof.
  unfold pretty, pretty_N. rewrite decide_False by done.
  destruct (pretty_N_go_head (N.pos p) ltac:(lia) "") as (d & rest & Hhead).
  destruct (parseDigits_pretty_N_go (N.pos p) ltac:(lia)) as (k & Hk & Hgo).
  assert (Hparse : parseDigits (pretty_N_go (N.pos p) "") None = Some (Z.pos p)).
  { rewrite Hgo. cbn [parseDigits default]. f_equal; lia. }
  split.
  - rewrite Hhead, parseInt10_digit_head, <- Hhead, Hparse. reflexivity.
  - change ("-" +:+ pretty_N_go (N.pos p) "")
      with (String "-" (pretty_N_go (N.pos p) "")).
    unfold parseInt10. cbn [trimStart].
    change (isWhiteSpace "-") with false. cbv iota beta. rewrite Hparse. reflexivity.
Qed.

(** X8.  For every integer [n] of magnitude below 2^53, [parseInt] reads
    back the decimal numeral of [n], so a target typed as that numeral is
    stored as [n] when [n] is not 0 (a negative [n] too) and as absent when
    [n] is 0. *)
Theorem parseInt10_String_of_number (n : Z) :
  - 2 ^ 53 < n < 2 ^ 53 →
  parseInt10 (String_of_number n) = Int n
  ∧ ∀ (env : Env) (form : GoalForm.t),
      GoalForm.targetCount form = String_of_number n →
      Goal.targetCount (nextGoal env form) = if n =? 0 then None else Some n.
Proof.
  intros _.
  assert (Hparse : parseInt10 (String_of_number n) = Int n).
  { unfold String_of_number. destruct n as [|p|p]; [reflexivity | |].
    - apply (parseInt10_pretty_pos p).
    - apply (parseInt10_pretty_pos p). }
  split; [exact Hparse |].
  intros env form Htext. unfold nextGoal. simpl. rewrite Htext.
  assert (Hne : nonempty (String_of_number n) = true).
  { destruct (String_of_number n); [discriminate Hparse | done]. }
  rewrite Hne, Hparse. reflexivity.
Qed.

Lemma parseInt10_String_of_number_witness :
  Goal.targetCount
    (nextGoal sampleEnv
       {| GoalForm.title := "Run"; GoalForm.type := daily; GoalForm.notes := "";
          GoalForm.targetCount := "12"; GoalForm.dueDate := "" |})
  = Some 12.
Proof.
  apply (proj2 (parseInt10_String_of_number 12 ltac:(split; reflexivity)) sampleEnv).
  reflexivity.
Defined.

(** ** More on Adjust *)

Lemma adjusted_id (now : Date) (goalId : string) (delta : Z) (goal : Goal.t) :
  Goal.id (adjusted now goalId delta goal) = Goal.id goal
  ∧ Goal.type (adjusted now goalId delta goal) = Goal.type goal
  ∧ Goal.targetCount (adjusted now goalId delta goal) = Goal.targetCount goal.
Proof. unfold adjusted. by case_decide. Qed.

Lemma getTargetForGoal_adjusted (now : Date) (goalId : string) (delta : Z)
    (goal : Goal.t) :
  getTargetForGoal (adjusted now goalId delta goal) = getTargetForGoal goal.
Proof.
  destruct (adjusted_id now goalId delta goal) as (_ & Hty & Htc).
  unfold getTargetForGoal. by rewrite Hty, Htc.
Qed.

(** X9.  The counts stay non-negative: when every recorded count is at
    least 0, it is so again after Create, after Adjust with any delta, and
    after Delete. *)
Theorem countsNonNegative_preserved (st : Store) :
  countsNonNegative (goals st) →
  (∀ (env : Env) (title : string) (type : GoalType)
     (notes targetCount dueDate : string),
     countsNonNegative (goals (Create env title type notes targetCount dueDate st)))
  ∧ (∀ (now : Date) (goalId : string) (delta : Z),
       countsNonNegative (goals (Adjust now goalId delta st)))
  ∧ (∀ goalId : string, countsNonNegative (goals (Delete goalId st))).
Proof.
  intros Hinv. unfold countsNonNegative in *. split; [| split].
  - intros env title type notes targetCount dueDate.
    unfold Create, handleSubmit. simpl.
    destruct (nonempty (trim title)); simpl; [| exact Hinv].
    constructor; [| exact Hinv]. simpl. apply map_Forall_empty.
  - intros now goalId delta. simpl. rewrite updateGoalCount_map.
    apply Forall_forall. intros g' Hin.
    apply list_elem_of_In, in_map_iff in Hin as (g & <- & Hg).
    apply list_elem_of_In in Hg.
    pose proof (proj1 (Forall_forall _ _) Hinv g Hg) as Hgoal.
    unfold adjusted. case_decide; [exact Hgoal |]. simpl.
    apply map_Forall_insert_2; [lia | exact Hgoal].
  - intros goalId. simpl.
    apply Forall_forall. intros g [Hg _]%deleteGoal_filter.
    exact (proj1 (Forall_forall _ _) Hinv g Hg).
Qed.

Lemma countsNonNegative_preserved_witness :
  countsNonNegative (goals (Adjust jan5 "g1" (-7) sampleStore)).
Proof.
  assert (Hinv : countsNonNegative (goals sampleStore)).
  { unfold countsNonNegative, sampleStore, goals.
    apply Forall_cons. split; [apply map_Forall_singleton; lia |].
    apply Forall_cons. split; [apply map_Forall_empty | apply Forall_nil_2]. }
  apply (proj1 (proj2 (countsNonNegative_preserved sampleStore Hinv))).
Defined.

(** X10.  Adjustments of two different ids can be made in either order. *)
Theorem Adjust_commute (now : Date) (a b : string) (da db : Z) (st : Store) :
  a ≠ b →
  Adjust now a da (Adjust now b db st) = Adjust now b db (Adjust now a da st).
Proof.
  intros Hne. destruct st as [gs f l]. unfold Adjust. simpl. f_equal.
  rewrite !updateGoalCount_map, !map_map. apply map_ext. intros g.
  destruct (decide (Goal.id g = a)) as [Ha | Ha];
    destruct (decide (Goal.id g = b)) as [Hb | Hb].
  - congruence.
  - rewrite (adjusted_other now b db g) by done.
    rewrite (adjusted_other now b db); [done |].
    by rewrite (proj1 (adjusted_id now a da g)).
  - rewrite (adjusted_other now a da g) by done.
    rewrite (adjusted_other now a da); [done |].
    by rewrite (proj1 (adjusted_id now b db g)).
  - by rewrite !adjusted_other by (by rewrite ?adjusted_other).
Qed.

Lemma Adjust_commute_witness :
  Adjust jan5 "g1" 1 (Adjust jan5 "g2" 1 sampleStore)
  = Adjust jan5 "g2" 1 (Adjust jan5 "g1" 1 sampleStore).
Proof. apply (Adjust_commute jan5 "g1" "g2" 1 1 sampleStore). vm_compute. discriminate. Defined.

(** X11.  A check-in followed by a decrement on the same day gives back
    every count of every goal whose count for that day was not negative;
    the list itself comes back when the goals with the id had an entry for
    that day already. *)
Theorem Adjust_undo (now : Date) (goalId : string) (st : Store) :
  (∀ (i : nat) (goal after : Goal.t),
     goals st !! i = Some goal →
     0 ≤ getCountForPeriod goal (getPeriodKey (Goal.type goal) now) →
     goals (Adjust now goalId (-1) (Adjust now goalId 1 st)) !! i = Some after →
     ∀ key : string, getCountForPeriod after key = getCountForPeriod goal key)
  ∧ (Forall (λ goal, Goal.id goal = goalId →
               ∃ n : Z, 0 ≤ n
                 ∧ Goal.entries goal !! getPeriodKey (Goal.type goal) now = Some n)
       (goals st) →
     Adjust now goalId (-1) (Adjust now goalId 1 st) = st).
Proof.
  split.
  - intros i goal after Hi Hcount Hafter key.
    simpl in Hafter.
    rewrite (updateGoalCount_lookup now goalId (-1) _ i
               (adjusted now goalId 1 goal)) in Hafter
      by (by apply updateGoalCount_lookup).
    injection Hafter as <-.
    destruct (decide (Goal.id goal = goalId)) as [Hid | Hid].
    + rewrite (adjusted_match now goalId 1 goal Hid).
      rewrite adjusted_match by done. simpl.
      set (k := getPeriodKey (Goal.type goal) now) in *.
      unfold getCountForPeriod in *. simpl.
      rewrite lookup_insert_eq. simpl.
      destruct (decide (k = key)) as [<- | Hk].
      * rewrite lookup_insert_eq. simpl. lia.
      * by rewrite !lookup_insert_ne.
    + by rewrite !adjusted_other by (by rewrite ?adjusted_other).
  - intros Hall. destruct st as [gs f l]. unfold Adjust. simpl in *. f_equal.
    rewrite !updateGoalCount_map, map_map.
    induction Hall as [|g rest Hg _ IH]; simpl; [done |]. f_equal; [| exact IH].
    destruct (decide (Goal.id g = goalId)) as [Hid | Hid].
    + destruct (Hg Hid) as (n & Hn & Hkey).
      rewrite (adjusted_match now goalId 1 g Hid).
      rewrite adjusted_match by done. simpl.
      set (k := getPeriodKey (Goal.type g) now) in *.
      unfold getCountForPeriod. simpl. rewrite lookup_insert_eq, Hkey. simpl.
      rewrite insert_insert_eq.
      replace (Z.max 0 (Z.max 0 (n + 1) + -1)) with n by lia.
      rewrite (insert_id (Goal.entries g) k n Hkey). by destruct g.
    + by rewrite !adjusted_other by (by rewrite ?adjusted_other).
Qed.

Lemma Adjust_undo_witness :
  getCountForPeriod (adjusted jan5 "g1" (-1) (adjusted jan5 "g1" 1 walk)) "2026-01-05"
  = getCountForPeriod walk "2026-01-05".
Proof.
  apply (proj1 (Adjust_undo jan5 "g1" sampleStore) 0%nat walk); reflexivity.
Defined.

(** ** Targets and completion *)

Lemma getTargetForGoal_negative (goal : Goal.t) (n : Z) :
  getTargetForGoal goal = Some n → n < 0 → Goal.targetCount goal = Some n.
Proof.
  intros Hn Hneg. unfold getTargetForGoal in Hn.
  destruct (truthy (Goal.targetCount goal)); [done |].
  case_decide; simplify_eq; lia.
Qed.

Lemma isGoalComplete_absent_key (goal : Goal.t) (periodKey : string) :
  Goal.entries goal !! periodKey = None →
  (isGoalComplete goal periodKey = true
   ↔ ∃ n : Z, Goal.targetCount goal = Some n ∧ n < 0).
Proof.
  intros Hnone. unfold isGoalComplete, getCountForPeriod. rewrite Hnone. simpl.
  destruct (getTargetForGoal goal) as [tgt|] eqn:Htarget.
  - pose proof (getTargetForGoal_truthy goal tgt Htarget) as Hnz.
    simpl. destruct (Z.eqb_spec tgt 0) as [| _]; [done |]. simpl.
    rewrite Z.leb_le. split.
    + intros Hle. exists tgt. split; [| lia].
      apply (getTargetForGoal_negative goal tgt Htarget). lia.
    + intros (n & Hn & Hneg).
      rewrite (getTargetForGoal_nonzero goal n Hn) in Htarget by lia.
      simplify_eq. lia.
  - split; [discriminate |]. intros (n & Hn & Hneg).
    rewrite (getTargetForGoal_nonzero goal n Hn) in Htarget by lia. discriminate.
Qed.

(** X12.  The target is never 0, so the card never divides by zero; it is
    absent exactly for an anytime goal whose [targetCount] is unset or 0,
    and it is negative exactly when [targetCount] is a negative number. *)
Theorem getTargetForGoal_range (goal : Goal.t) :
  getTargetForGoal goal ≠ Some 0
  ∧ (getTargetForGoal goal = None
     ↔ Goal.type goal = anytime ∧ truthy (Goal.targetCount goal) = false)
  ∧ (∀ n : Z, getTargetForGoal goal = Some n → n < 0 →
       Goal.targetCount goal = Some n).
Proof.
  split; [| split].
  - intros H. by apply getTargetForGoal_truthy in H.
  - unfold getTargetForGoal.
    destruct (truthy (Goal.targetCount goal)) eqn:Htruthy.
    + destruct (Goal.targetCount goal); [| done].
      split; [discriminate | intros [_ ?]; discriminate].
    + case_decide as Hty.
      * by split.
      * split; [discriminate | by intros [? _]].
  - apply getTargetForGoal_negative.
Qed.

Lemma getTargetForGoal_range_witness :
  Goal.targetCount
    {| Goal.id := "x"; Goal.title := "x"; Goal.type := daily; Goal.notes := "";
       Goal.targetCount := Some (-5); Goal.dueDate := None; Goal.createdAt := "";
       Goal.entries := ∅ |}
  = Some (-5).
Proof.
  apply (proj2 (proj2 (getTargetForGoal_range _)) (-5)); [reflexivity | lia].
Defined.

(** X13.  A goal without an entry for the period is complete only if its
    [targetCount] is negative: with a positive or unset [targetCount] a
    new period starts incomplete. *)
Theorem isGoalComplete_without_entry (goal : Goal.t) (periodKey : string) :
  Goal.entries goal !! periodKey = None →
  getCountForPeriod goal periodKey = 0
  ∧ (isGoalComplete goal periodKey = true
     ↔ ∃ n : Z, Goal.targetCount goal = Some n ∧ n < 0).
Proof.
  intros Hnone. split; [| by apply isGoalComplete_absent_key].
  unfold getCountForPeriod. by rewrite Hnone.
Qed.

Lemma isGoalComplete_without_entry_witness :
  isGoalComplete walk "2026-01-05" = true
  ↔ ∃ n : Z, Goal.targetCount walk = Some n ∧ n < 0.
Proof.
  apply (proj2 (isGoalComplete_without_entry walk "2026-01-05" eq_refl)).
Defined.

(** X14.  Completion is monotone in the count: a goal that is complete
    stays complete under any Adjust with a non-negative delta, whatever id
    the Adjust names. *)
Theorem isGoalComplete_monotone (now : Date) (goalId : string) (delta : Z)
    (st : Store) (i : nat) (goal : Goal.t) :
  0 ≤ delta →
  goals st !! i = Some goal →
  isGoalComplete goal (getPeriodKey (Goal.type goal) now) = true →
  ∃ after : Goal.t,
    goals (Adjust now goalId delta st) !! i = Some after
    ∧ isGoalComplete after (getPeriodKey (Goal.type after) now) = true.
Proof.
  intros Hdelta Hi Hcomplete.
  exists (adjusted now goalId delta goal).
  split; [simpl; by apply updateGoalCount_lookup |].
  destruct (decide (Goal.id goal = goalId)) as [Hid | Hid].
  2:{ by rewrite adjusted_other. }
  unfold isGoalComplete in *.
  rewrite getTargetForGoal_adjusted.
  rewrite (proj1 (proj2 (adjusted_id now goalId delta goal))).
  set (key := getPeriodKey (Goal.type goal) now) in *.
  assert (Hcount : getCountForPeriod (adjusted now goalId delta goal) key
                   = Z.max 0 (getCountForPeriod goal key + delta)).
  { rewrite adjusted_match by done. unfold getCountForPeriod. simpl.
    fold key. by rewrite lookup_insert_eq. }
  rewrite Hcount.
  destruct (getTargetForGoal goal) as [tgt|]; simpl in *.
  - destruct (tgt =? 0); simpl in *.
    + apply Z.ltb_lt in Hcomplete. apply Z.ltb_lt. lia.
    + apply Z.leb_le in Hcomplete. apply Z.leb_le. lia.
  - apply Z.ltb_lt in Hcomplete. apply Z.ltb_lt. lia.
Qed.

Lemma isGoalComplete_monotone_witness :
  ∃ after : Goal.t,
    goals (Adjust jan5 "done-0" 1
             {| goals := [doneGoal "2026-01-05" 0]; form := emptyForm;
                isLoaded := true |}) !! 0%nat = Some after
    ∧ isGoalComplete after (getPeriodKey (Goal.type after) jan5) = true.
Proof.
  apply (isGoalComplete_monotone jan5 "done-0" 1
           {| goals := [doneGoal "2026-01-05" 0]; form := emptyForm;
              isLoaded := true |} 0%nat (doneGoal "2026-01-05" 0));
    [lia | reflexivity | reflexivity].
Defined.

(** X15.  From a count of 0, a goal with a positive target [tgt] is
    complete after [n] check-ins exactly when [n] has reached [tgt]. *)
Theorem complete_after_checkins (now : Date) (st : Store) (i : nat)
    (goal : Goal.t) (tgt : Z) (n : nat) :
  goals st !! i = Some goal →
  getTargetForGoal goal = Some tgt →
  0 < tgt →
  getCountForPeriod goal (getPeriodKey (Goal.type goal) now) = 0 →
  ∃ after : Goal.t,
    goals (Nat.iter n (Adjust now (Goal.id goal) 1) st) !! i = Some after
    ∧ getCountForPeriod after (getPeriodKey (Goal.type goal) now) = Z.of_nat n
    ∧ (isGoalComplete after (getPeriodKey (Goal.type goal) now) = true
       ↔ tgt ≤ Z.of_nat n).
Proof.
  intros Hi Htarget Htgt Hzero.
  destruct (Adjust_iter_count now (Goal.id goal) n st i goal Hi eq_refl)
    as (after & Hafter & _ & Hty & Htc & Hcount); [lia |].
  exists after. rewrite Hzero in Hcount. simpl in Hcount.
  split; [exact Hafter |]. split; [exact Hcount |].
  assert (Htarget' : getTargetForGoal after = Some tgt).
  { unfold getTargetForGoal in *. by rewrite Hty, Htc. }
  unfold isGoalComplete. rewrite Htarget', Hcount. simpl.
  destruct (Z.eqb_spec tgt 0); [lia |]. simpl. apply Z.leb_le.
Qed.

Lemma complete_after_checkins_witness :
  ∃ after : Goal.t,
    goals (Nat.iter 4 (Adjust jan5 "g1" 1) sampleStore) !! 0%nat = Some after
    ∧ getCountForPeriod after "2026-01-05" = 4.
Proof.
  destruct (complete_after_checkins jan5 sampleStore 0%nat walk 4 4
              eq_refl eq_refl ltac:(lia) eq_refl) as (after & H1 & H2 & _).
  exists after. split; assumption.
Defined.

(** ** The three columns *)

Lemma goalsOfType_elem (type : GoalType) (gs : list Goal.t) (goal : Goal.t) :
  goal ∈ goalsOfType type gs ↔ goal ∈ gs ∧ Goal.type goal = type.
Proof.
  unfold goalsOfType. rewrite !list_elem_of_In, filter_In, bool_decide_eq_true.
  reflexivity.
Qed.

Lemma goalsOfType_sublist (type : GoalType) (gs : list Goal.t) :
  sublist (goalsOfType type gs) gs.
Proof.
  unfold goalsOfType. induction gs as [|g rest IH]; simpl; [done |].
  case_bool_decide; [by apply sublist_skip | by apply sublist_cons].
Qed.

Lemma goalsOfType_lengths (gs : list Goal.t) :
  Array_length (goalsOfType daily gs) + Array_length (goalsOfType monthly gs)
  + Array_length (goalsOfType anytime gs) = Array_length gs.
Proof.
  unfold goalsOfType, Array_length.
  induction gs as [|g rest IH]; simpl; [done |].
  destruct (Goal.type g); simpl; lia.
Qed.

(** X16.  The three columns split the list: every goal is in the column of
    its type and in no other, each column keeps the order of the list, and
    their lengths add up to the length of the list. *)
Theorem columns_partition (gs : list Goal.t) :
  (∀ (type : GoalType) (goal : Goal.t),
     goal ∈ goalsOfType type gs ↔ goal ∈ gs ∧ Goal.type goal = type)
  ∧ (∀ type : GoalType, sublist (goalsOfType type gs) gs)
  ∧ Array_length (goalsOfType daily gs) + Array_length (goalsOfType monthly gs)
    + Array_length (goalsOfType anytime gs) = Array_length gs.
Proof.
  split; [intros; apply goalsOfType_elem |].
  split; [intros; apply goalsOfType_sublist | apply goalsOfType_lengths].
Qed.

(** X17.  The columns follow the operations: adjusting or deleting in the
    list and then taking a column is taking the column and then adjusting
    or deleting in it; a created goal comes first in the column of its
    type and leaves the other columns as they were. *)
Theorem columns_follow (type : GoalType) (st : Store) :
  (∀ (now : Date) (goalId : string) (delta : Z),
     goalsOfType type (goals (Adjust now goalId delta st))
     = updateGoalCount now goalId delta (goalsOfType type (goals st)))
  ∧ (∀ goalId : string,
       goalsOfType type (goals (Delete goalId st))
       = deleteGoal goalId (goalsOfType type (goals st)))
  ∧ (∀ (env : Env) (title : string) (type' : GoalType)
       (notes targetCount dueDate : string),
       trim title ≠ "" →
       ∃ goal : Goal.t,
         goals (Create env title type' notes targetCount dueDate st) = goal :: goals st
         ∧ goalsOfType type (goals (Create env title type' notes targetCount dueDate st))
           = if decide (type' = type) then goal :: goalsOfType type (goals st)
             else goalsOfType type (goals st)).
Proof.
  split; [| split].
  - intros now goalId delta. simpl. rewrite !updateGoalCount_map.
    unfold goalsOfType. induction (goals st) as [|g rest IH]; simpl; [done |].
    rewrite (proj1 (proj2 (adjusted_id now goalId delta g))).
    case_bool_decide; simpl; by rewrite IH.
  - intros goalId. simpl. unfold goalsOfType, deleteGoal.
    induction (goals st) as [|g rest IH]; simpl; [done |].
    repeat (case_bool_decide; simpl); by rewrite ?IH.
  - intros env title type' notes targetCount dueDate Htitle.
    unfold Create. rewrite handleSubmit_titled by done. simpl.
    eexists. split; [reflexivity |].
    case_decide; [by rewrite bool_decide_eq_true_2 | by rewrite bool_decide_eq_false_2].
Qed.

Lemma columns_follow_witness :
  ∃ goal : Goal.t,
    goalsOfType monthly (goals (Create sampleEnv "Hike" monthly "" "" "" sampleStore))
    = [goal].
Proof.
  destruct (proj2 (proj2 (columns_follow monthly sampleStore))
              sampleEnv "Hike" monthly "" "" "") as (goal & _ & Hcol).
  - vm_compute. discriminate.
  - exists goal. rewrite Hcol. reflexivity.
Defined.

(** ** More on the statistics *)

(** X18.  The counts of the dashboard are consistent: each "done" count
    lies between 0 and the size of its column, and the total is the sum of
    the three column sizes. *)
Theorem stats_counts (dailyKey monthlyKey : string) (gs : list Goal.t) :
  0 ≤ dailyDone (stats dailyKey monthlyKey gs) ≤ Array_length (goalsOfType daily gs)
  ∧ 0 ≤ monthlyDone (stats dailyKey monthlyKey gs)
      ≤ Array_length (goalsOfType monthly gs)
  ∧ 0 ≤ anytimeDone (stats dailyKey monthlyKey gs)
      ≤ Array_length (goalsOfType anytime gs)
  ∧ totalGoals (stats dailyKey monthlyKey gs)
    = Array_length (goalsOfType daily gs) + Array_length (goalsOfType monthly gs)
      + Array_length (goalsOfType anytime gs).
Proof.
  assert (Hle : ∀ (f : Goal.t → bool) (l : list Goal.t),
            0 ≤ Array_length (List.filter f l) ≤ Array_length l).
  { intros f l. unfold Array_length. split; [lia |].
    apply Nat2Z.inj_le, List.filter_length_le. }
  unfold stats. simpl. repeat split; try apply Hle.
  symmetry. apply goalsOfType_lengths.
Qed.

Lemma percent_full (t : Z) : 0 < t < 2 ^ 44 → Double.percent t t = 100.
Proof.
  intros [Hpos Hlt].
  destruct (percent_rounds t t ltac:(lia) Hpos) as [_ Hexact].
  rewrite Hexact.
  - unfold round_exact. symmetry. apply (Z.div_unique _ _ 100 t); lia.
  - unfold halfway. replace (2 * (100 * t)) with (0 + 100 * (2 * t)) by lia.
    rewrite Z.mod_add by lia. rewrite Z.mod_0_l by lia. lia.
Qed.

(** X19.  With fewer than 2^32 goals and at least one, the completion rate
    is 100 when every goal is complete for the current period of its type,
    and 0 when none is. *)
Theorem completionRate_extremes (dailyKey monthlyKey : string) (gs : list Goal.t) :
  gs ≠ [] →
  Array_length gs < 2 ^ 32 →
  (totalComplete dailyKey monthlyKey gs = Array_length gs →
     completionRate (stats dailyKey monthlyKey gs) = 100)
  ∧ (totalComplete dailyKey monthlyKey gs = 0 →
     completionRate (stats dailyKey monthlyKey gs) = 0).
Proof.
  intros Hne Hlen.
  assert (Hpos : 0 < Array_length gs).
  { destruct gs; [done |]. unfold Array_length. simpl length. lia. }
  assert (Hsmall : Array_length gs < 2 ^ 44).
  { eapply Z.lt_trans; [exact Hlen | reflexivity]. }
  rewrite stats_completionRate.
  destruct (Z.eqb_spec (Array_length gs) 0) as [| _]; [lia |]. simpl.
  split; intros ->.
  - apply percent_full. lia.
  - apply percent_zero. lia.
Qed.

Lemma completionRate_extremes_witness :
  completionRate (stats "2026-01-05" "2026-01" (mixedGoals "2026-01-05" 3 0)) = 100
  ∧ completionRate (stats "2026-01-05" "2026-01" (mixedGoals "2026-01-05" 0 3)) = 0.
Proof.
  split.
  - apply (proj1 (completionRate_extremes "2026-01-05" "2026-01"
                    (mixedGoals "2026-01-05" 3 0) ltac:(discriminate) eq_refl)).
    reflexivity.
  - apply (proj2 (completionRate_extremes "2026-01-05" "2026-01"
                    (mixedGoals "2026-01-05" 0 3) ltac:(discriminate) eq_refl)).
    reflexivity.
Defined.

(** ** More on the card *)

(** X20.  The card agrees with itself, for a positive target and a count
    from 0 to below 2^44: the percentage shown lies between 0 and 100, a
    complete goal shows 100 percent, and a goal with no check-in shows 0
    percent, is not complete and has its decrement button disabled. *)
Theorem GoalCard_consistent (goal : Goal.t) (periodKey : string) (tgt : Z) :
  getTargetForGoal goal = Some tgt →
  0 < tgt →
  0 ≤ getCountForPeriod goal periodKey < 2 ^ 44 →
  (∃ pct : Z, progressBar (GoalCard goal periodKey) = Some pct ∧ 0 ≤ pct ≤ 100)
  ∧ (isComplete (GoalCard goal periodKey) = true →
     progressBar (GoalCard goal periodKey) = Some 100)
  ∧ (getCountForPeriod goal periodKey = 0 →
     progressBar (GoalCard goal periodKey) = Some 0
     ∧ isComplete (GoalCard goal periodKey) = false
     ∧ decrementDisabled (GoalCard goal periodKey) = true).
Proof.
  intros Htarget Htgt Hcount.
  destruct (GoalCard_progress goal periodKey tgt Htarget) as [_ Hbar].
  assert (Hcomplete : isComplete (GoalCard goal periodKey)
                      = (tgt <=? getCountForPeriod goal periodKey)).
  { unfold GoalCard, isGoalComplete. simpl. rewrite Htarget. simpl.
    by destruct (Z.eqb_spec tgt 0); [lia |]. }
  set (c := getCountForPeriod goal periodKey) in *.
  destruct (percent_rounds c tgt Hcount Htgt) as [[Hlo Hhi] Hexact].
  split; [| split].
  - eexists. split; [exact Hbar |]. split; [| lia].
    assert (HK : 0 ≤ round_exact (100 * c) tgt).
    { unfold round_exact. apply Z.div_pos; lia. }
    destruct (Z.eq_dec (round_exact (100 * c) tgt) 0) as [HK0 | HKne]; [| lia].
    rewrite Hexact; [lia |].
    unfold halfway. intros Hhalf.
    assert (Hsmall : 2 * (100 * c) + tgt < 2 * tgt).
    { unfold round_exact in HK0. apply Z.div_small_iff in HK0; lia. }
    rewrite Z.mod_small in Hhalf by lia. lia.
  - rewrite Hcomplete, Hbar. intros Hle%Z.leb_le. f_equal.
    assert (HK : 100 ≤ round_exact (100 * c) tgt).
    { unfold round_exact. apply Z.div_le_lower_bound; lia. }
    destruct (Z.eq_dec (round_exact (100 * c) tgt) 100) as [HK100 | HKne]; [| lia].
    rewrite Hexact; [lia |].
    unfold halfway. intros Hhalf.
    unfold round_exact in HK100.
    pose proof (Z.div_mod (2 * (100 * c) + tgt) (2 * tgt) ltac:(lia)) as Hdm.
    pose proof (Z.mod_pos_bound (2 * (100 * c) + tgt) (2 * tgt) ltac:(lia)) as Hm.
    pose proof (Z.div_mod (2 * (100 * c)) (2 * tgt) ltac:(lia)) as Hdm'.
    rewrite Hhalf in Hdm'. rewrite HK100 in Hdm.
    assert (Hq : 100 ≤ 2 * (100 * c) / (2 * tgt)).
    { apply Z.div_le_lower_bound; lia. }
    nia.
  - intros Hzero. rewrite Hcomplete, Hbar. unfold GoalCard. simpl. fold c.
    rewrite Hzero. rewrite percent_zero by done.
    split; [reflexivity |]. split; [apply Z.leb_gt; lia | reflexivity].
Qed.

Lemma GoalCard_consistent_witness :
  progressBar (GoalCard walk "2026-01-05") = Some 0.
Proof.
  apply (proj2 (proj2 (GoalCard_consistent walk "2026-01-05" 4 eq_refl ltac:(lia)
                         ltac:(by vm_compute)))).
  reflexivity.
Defined.

(** ** More on the period keys *)

Lemma string_app_length (s t : string) :
  String.length (s +:+ t) = (String.length s + String.length t)%nat.
Proof. induction s as [|c s IH]; simpl; [done | by rewrite IH]. Qed.

Lemma string_app_inj_tail (s1 s2 t1 t2 : string) :
  String.length t1 = String.length t2 →
  s1 +:+ t1 = s2 +:+ t2 → s1 = s2 ∧ t1 = t2.
Proof.
  intros Hlen. revert s2. induction s1 as [|c s1 IH]; intros [|d s2] Heq; simpl in *.
  - done.
  - apply (f_equal String.length) in Heq.
    rewrite ?string_app_length in Heq. simpl in Heq.
    rewrite ?string_app_length in Heq. lia.
  - apply (f_equal String.length) in Heq.
    rewrite ?string_app_length in Heq. simpl in Heq.
    rewrite ?string_app_length in Heq. lia.
  - injection Heq as -> Heq. destruct (IH _ Heq) as [-> ->]. done.
Qed.

Lemma below_100 (P : Z → bool) :
  forallb P (range 0 100) = true → ∀ v : Z, 0 ≤ v ≤ 99 → P v = true.
Proof.
  intros Hall v Hv. apply (proj1 (forallb_forall _ _) Hall).
  unfold range. apply in_map_iff. exists (Z.to_nat v). split; [lia |].
  apply in_seq. lia.
Qed.

Lemma pad_length (v : Z) : 0 ≤ v ≤ 99 → String.length (pad v) = 2%nat.
Proof.
  intros Hv.
  apply Nat.eqb_eq.
  apply (below_100 (λ v, Nat.eqb (String.length (pad v)) 2)); [| exact Hv].
  by vm_compute.
Qed.

Lemma pad_inj (a b : Z) : 0 ≤ a ≤ 99 → 0 ≤ b ≤ 99 → pad a = pad b → a = b.
Proof.
  intros Ha Hb Heq.
  assert (Hall : forallb
            (λ a, forallb (λ b, implb (String.eqb (pad a) (pad b)) (a =? b))
                    (range 0 100)) (range 0 100) = true) by (by vm_compute).
  pose proof (below_100 _ Hall a Ha) as Hrow. cbv beta in Hrow.
  pose proof (below_100 _ Hrow b Hb) as Hcell. cbv beta in Hcell.
  rewrite Heq, String.eqb_refl in Hcell. by apply Z.eqb_eq.
Qed.

Lemma period_keys_inj (d1 d2 : Date) :
  calendarFields d1 → calendarFields d2 →
  (formatDateKey d1 = formatDateKey d2 → d1 = d2)
  ∧ (formatMonthKey d1 = formatMonthKey d2 →
     getFullYear d1 = getFullYear d2 ∧ getMonth d1 = getMonth d2).
Proof.
  intros [Hm1 Hd1] [Hm2 Hd2].
  destruct d1 as [y1 m1 day1], d2 as [y2 m2 day2]. simpl in *.
  pose proof (pad_length (m1 + 1) ltac:(lia)) as Hlm1.
  pose proof (pad_length (m2 + 1) ltac:(lia)) as Hlm2.
  pose proof (pad_length day1 ltac:(lia)) as Hld1.
  pose proof (pad_length day2 ltac:(lia)) as Hld2.
  unfold formatDateKey, formatMonthKey, String_of_number. simpl.
  split.
  - intros Heq.
    apply string_app_inj_tail in Heq as [Hy Htail].
    2:{ rewrite !string_app_length, Hlm1, Hlm2, Hld1, Hld2. reflexivity. }
    injection Htail as Htail.
    change (pad (m1 + 1) +:+ "-" +:+ pad day1 = pad (m2 + 1) +:+ "-" +:+ pad day2)
      in Htail.
    apply string_app_inj_tail in Htail as [Hm Hday].
    2:{ rewrite !string_app_length, Hld1, Hld2. reflexivity. }
    injection Hday as Hday. change (pad day1 = pad day2) in Hday.
    apply (inj pretty) in Hy. apply pad_inj in Hm; [| lia..].
    apply pad_inj in Hday; [| lia..].
    f_equal; lia.
  - intros Heq.
    apply string_app_inj_tail in Heq as [Hy Htail].
    2:{ rewrite !string_app_length, Hlm1, Hlm2. reflexivity. }
    injection Htail as Hm. change (pad (m1 + 1) = pad (m2 + 1)) in Hm.
    apply (inj pretty) in Hy. apply pad_inj in Hm; [| lia..].
    split; lia.
Qed.


(** X21.  On calendar dates the period keys tell the periods apart: two
    dates with the same daily key are the same day, two dates with the
    same monthly key are in the same month of the same year, and the key
    of an anytime goal does not depend on the date. *)
Theorem period_keys_injective (d1 d2 : Date) :
  calendarFields d1 → calendarFields d2 →
  (getPeriodKey daily d1 = getPeriodKey daily d2 → d1 = d2)
  ∧ (getPeriodKey monthly d1 = getPeriodKey monthly d2 →
     getFullYear d1 = getFullYear d2 ∧ getMonth d1 = getMonth d2)
  ∧ getPeriodKey anytime d1 = getPeriodKey anytime d2.
Proof.
  intros H1 H2. destruct (period_keys_inj d1 d2 H1 H2) as [Hday Hmonth].
  split; [exact Hday |]. split; [exact Hmonth | reflexivity].
Qed.

Lemma period_keys_injective_witness : mkDate 2026 0 5 = jan5.
Proof.
  apply (proj1 (period_keys_injective (mkDate 2026 0 5) jan5
                  ltac:(unfold calendarFields; simpl; lia)
                  ltac:(unfold calendarFields; simpl; lia))).
  reflexivity.
Defined.

(** X22.  A check-in counts for its own period only: an Adjust made on
    one day leaves the count that a daily goal has for any other day as it
    was, and likewise for a monthly goal and another month. *)
Theorem Adjust_other_period (now other : Date) (goalId : string) (delta : Z)
    (st : Store) (i : nat) (goal : Goal.t) :
  calendarFields now → calendarFields other →
  goals st !! i = Some goal →
  (Goal.type goal = daily ∧ now ≠ other)
  ∨ (Goal.type goal = monthly
     ∧ (getFullYear now ≠ getFullYear other ∨ getMonth now ≠ getMonth other)) →
  ∃ after : Goal.t,
    goals (Adjust now goalId delta st) !! i = Some after
    ∧ getCountForPeriod after (getPeriodKey (Goal.type goal) other)
      = getCountForPeriod goal (getPeriodKey (Goal.type goal) other).
Proof.
  intros Hnow Hother Hi Hcase.
  exists (adjusted now goalId delta goal).
  split; [simpl; by apply updateGoalCount_lookup |].
  unfold adjusted. case_decide; [done |].
  unfold getCountForPeriod at 1. simpl.
  rewrite lookup_insert_ne; [done |].
  destruct (period_keys_inj other now Hother Hnow) as [Hday Hmonth].
  destruct Hcase as [[Hty Hne] | [Hty Hne]]; rewrite Hty; intros Heq.
  - symmetry in Heq. apply Hday in Heq. congruence.
  - symmetry in Heq. apply Hmonth in Heq. destruct Heq. destruct Hne; congruence.
Qed.

Lemma Adjust_other_period_witness :
  ∃ after : Goal.t,
    goals (Adjust jan5 "g1" 1 sampleStore) !! 0%nat = Some after
    ∧ getCountForPeriod after "2026-01-04" = 2.
Proof.
  apply (Adjust_other_period jan5 (mkDate 2026 0 4) "g1" 1 sampleStore 0%nat walk).
  - unfold calendarFields; simpl; lia.
  - unfold calendarFields; simpl; lia.
  - reflexivity.
  - left. split; [reflexivity | discriminate].
Defined.

(** ** Writing to storage *)

(** X23.  Nothing is written before the load: the persist effect leaves
    the storage alone while [isLoaded] is false.  When the render of the
    loaded list runs to the end, mounting ends with the page loaded and the
    storage holding the serialization of the goal list in state; when that
    render throws, the page is gone and the storage keeps what it held.  A
    stored text that is missing, empty, does not parse or is not an array
    loads the empty list, which always renders, so it is replaced by the
    serialization of the empty list. *)
Theorem mount_spec (JSON_parse : string → option JSValue)
    (JSON_stringify : JSValue → string) (renders : list JSValue → bool)
    (storage : option string) :
  (∀ (st : Startup.t) (stored : option string),
     Startup.isLoaded st = false →
     Persist.persistEffect JSON_stringify st stored = stored)
  ∧ (Persist.rendersOk renders
       (Startup.goals (Startup.startup JSON_parse storage)) = true →
     Persist.mount JSON_parse JSON_stringify renders storage
     = (Some (Startup.startup JSON_parse storage),
        Some (JSON_stringify (Startup.goals (Startup.startup JSON_parse storage))))
     ∧ Startup.isLoaded (Startup.startup JSON_parse storage) = true)
  ∧ (Persist.rendersOk renders
       (Startup.goals (Startup.startup JSON_parse storage)) = false →
     Persist.mount JSON_parse JSON_stringify renders storage = (None, storage))
  ∧ (storage = None ∨ storage = Some ""
     ∨ (∃ text : string, storage = Some text
          ∧ (JSON_parse text = None
             ∨ ∃ parsed : JSValue, JSON_parse text = Some parsed
                 ∧ Array_isArray parsed = false)) →
     Startup.goals (Startup.startup JSON_parse storage) = JArray []
     ∧ Persist.mount JSON_parse JSON_stringify renders storage
       = (Some (Startup.startup JSON_parse storage),
          Some (JSON_stringify (JArray [])))).
Proof.
  assert (Hok : Persist.rendersOk renders
                  (Startup.goals (Startup.startup JSON_parse storage)) = true →
                Persist.mount JSON_parse JSON_stringify renders storage
                = (Some (Startup.startup JSON_parse storage),
                   Some (JSON_stringify
                           (Startup.goals (Startup.startup JSON_parse storage))))).
  { intros Hrenders. unfold Persist.mount. fold (Startup.startup JSON_parse storage).
    rewrite Hrenders. reflexivity. }
  split; [| split; [| split]].
  - intros st stored Hnot. unfold Persist.persistEffect. by rewrite Hnot.
  - intros Hrenders. split; [by apply Hok | reflexivity].
  - intros Hthrows. unfold Persist.mount. fold (Startup.startup JSON_parse storage).
    rewrite Hthrows. reflexivity.
  - intros Hcase.
    assert (Hempty : Startup.goals (Startup.startup JSON_parse storage) = JArray []).
    { unfold Startup.startup, Startup.loadEffect.
      destruct Hcase as [-> | [-> | (text & -> & Hparse)]]; [reflexivity.. |].
      destruct (nonempty text); [| reflexivity].
      destruct Hparse as [-> | (parsed & -> & ->)]; reflexivity. }
    split; [exact Hempty |].
    rewrite Hok; [by rewrite Hempty | by rewrite Hempty].
Qed.

Lemma mount_spec_witness :
  Persist.mount sample_JSON_parse sample_JSON_stringify sample_renders (Some "[nul")
  = (Some (Startup.startup sample_JSON_parse (Some "[nul")), Some "[]")
  ∧ Persist.mount sample_JSON_parse sample_JSON_stringify sample_renders
      (Some "[null]")
    = (None, Some "[null]").
Proof.
  split.
  - destruct (mount_spec sample_JSON_parse sample_JSON_stringify sample_renders
                (Some "[nul")) as (_ & _ & _ & Hcorrupt).
    apply Hcorrupt. right. right. exists "[nul". split; [reflexivity |].
    left. reflexivity.
  - destruct (mount_spec sample_JSON_parse sample_JSON_stringify sample_renders
                (Some "[null]")) as (_ & _ & Hthrows & _).
    apply Hthrows. reflexivity.
Defined.

(** ** A new goal *)

(** X24.  A goal just created has no entry: its count is 0 under every
    period key, so it is complete only if its target text was a negative
    numeral; its [targetCount] is never 0, its [dueDate] is never the empty
    string, its notes carry no white space at either end, and the form is
    empty again. *)
Theorem Create_new_goal (env : Env) (title : string) (type : GoalType)
    (notes targetCount dueDate : string) (st : Store) :
  trim title ≠ "" →
  ∃ goal : Goal.t,
    goals (Create env title type notes targetCount dueDate st) = goal :: goals st
    ∧ form (Create env title type notes targetCount dueDate st) = emptyForm
    ∧ isLoaded (Create env title type notes targetCount dueDate st) = isLoaded st
    ∧ (∀ key : string, getCountForPeriod goal key = 0)
    ∧ (∀ key : string,
         isGoalComplete goal key = true
         ↔ ∃ n : Z, Goal.targetCount goal = Some n ∧ n < 0)
    ∧ Goal.targetCount goal ≠ Some 0
    ∧ Goal.dueDate goal ≠ Some ""
    ∧ Goal.createdAt goal = nowISO env
    ∧ startsWithWhiteSpace (Goal.notes goal) = false
    ∧ endsWithWhiteSpace (Goal.notes goal) = false.
Proof.
  intros Htitle. unfold Create. rewrite handleSubmit_titled by done. simpl.
  eexists. split; [reflexivity |]. split; [reflexivity |]. split; [reflexivity |].
  split; [reflexivity |].
  split; [intros key; by apply isGoalComplete_absent_key |].
  split; [apply nextGoal_targetCount_nonzero |].
  split; [simpl; by destruct dueDate |].
  split; [reflexivity |]. simpl. split; apply trim_clean.
Qed.

Lemma Create_new_goal_witness :
  ∃ goal : Goal.t,
    goals (Create sampleEnv "Hike" monthly " up " "" "" sampleStore)
    = goal :: goals sampleStore
    ∧ Goal.notes goal = "up".
Proof.
  destruct (Create_new_goal sampleEnv "Hike" monthly " up " "" "" sampleStore)
    as (goal & Hgoals & _); [vm_compute; discriminate |].
  exists goal. split; [exact Hgoals |].
  injection Hgoals as <-. reflexivity.
Defined.
